(** * push_notifications.apns_async: payload building and the two send calls

    A shallow embedding of [src/push_notifications/apns_async.py].  Python
    values that reach the wire are [pyval]s, dictionaries are association
    lists in insertion order, [Alert] instances live on a heap (the caller
    and the builder share them by reference), and the send calls run in a
    state-and-exception monad over a world made of that heap, the device
    table and the list of things done so far. *)

From Stdlib Require Import ZArith Ascii String List Bool Lia.
From stdpp Require Import base option list gmap.
Import ListNotations.

Local Open Scope string_scope.
Local Open Scope Z_scope.

(** ** Python values *)

(** The members of [aioapns.PushType] the module uses. *)
Inductive PushType := ALERT | BACKGROUND.

(** Plain data: what [json.dumps] accepts. *)
#[warnings="-register-all"]
Inductive pyval :=
| PyNone
| PyBool (b : bool)
| PyInt (z : Z)
| PyStr (s : string)
| PyList (l : list pyval)
| PyDict (d : list (string * pyval)).

(** A value of a keyword dictionary handed to [NotificationRequest]. *)
Inductive kwval :=
| KwPushType (p : PushType)
| KwVal (v : pyval).

(** ** Dictionaries with string keys, in insertion order *)

Definition dict (V : Type) := list (string * V).

(** [d[k] = v]: an existing key keeps its place, a new one goes last. *)
Fixpoint dict_set {V} (k : string) (v : V) (d : dict V) : dict V :=
  match d with
  | [] => [(k, v)]
  | (k', v') :: d' =>
      if String.eqb k' k then (k', v) :: d' else (k', v') :: dict_set k v d'
  end.

Fixpoint dict_get {V} (k : string) (d : dict V) : option V :=
  match d with
  | [] => None
  | (k', v') :: d' => if String.eqb k' k then Some v' else dict_get k d'
  end.

Definition dict_has {V} (k : string) (d : dict V) : bool :=
  match dict_get k d with Some _ => true | None => false end.

(** [d.update(src)], also what [**src] does inside a dict display. *)
Definition dict_update {V} (d src : dict V) : dict V :=
  fold_left (fun acc kv => dict_set (fst kv) (snd kv) acc) src d.

(** A dict display [{k1: v1, ..., kn: vn}]. *)
Definition dict_display {V} (items : list (string * V)) : dict V :=
  dict_update [] items.

Definition dict_copy {V} (d : dict V) : dict V := d.

Definition dict_keys {V} (d : dict V) : list string := map fst d.

(** ** The [Alert] dataclass *)

(** A field either still holds the [NotSet] class (its default) or a value. *)
Inductive attr :=
| NotSet
| Value (v : pyval).

Record Alert := mkAlert {
  title : attr;
  subtitle : attr;
  body : attr;
  launch_image : attr;
  title_loc_key : attr;
  title_loc_args : attr;
  subtitle_loc_key : attr;
  subtitle_loc_args : attr;
  loc_key : attr;
  loc_args : attr;
  sound : attr
}.

(** [Alert(body=v)]. *)
Definition Alert_body (v : pyval) : Alert :=
  mkAlert NotSet NotSet (Value v) NotSet NotSet NotSet NotSet NotSet NotSet NotSet NotSet.

(** [a.loc_key = v]. *)
Definition set_loc_key (a : Alert) (v : pyval) : Alert :=
  mkAlert (title a) (subtitle a) (body a) (launch_image a) (title_loc_key a)
          (title_loc_args a) (subtitle_loc_key a) (subtitle_loc_args a)
          (Value v) (loc_args a) (sound a).

(** [dataclasses.asdict]: the fields in declaration order. *)
Definition asdict (a : Alert) : list (string * attr) :=
  [ ("title", title a);
    ("subtitle", subtitle a);
    ("body", body a);
    ("launch_image", launch_image a);
    ("title_loc_key", title_loc_key a);
    ("title_loc_args", title_loc_args a);
    ("subtitle_loc_key", subtitle_loc_key a);
    ("subtitle_loc_args", subtitle_loc_args a);
    ("loc_key", loc_key a);
    ("loc_args", loc_args a);
    ("sound", sound a) ].

(** [s.replace(a, b)] for one-character [a] and [b]. *)
Fixpoint str_replace (a b : ascii) (s : string) : string :=
  match s with
  | EmptyString => EmptyString
  | String c s' => String (if Ascii.eqb c a then b else c) (str_replace a b s')
  end.

(** [Alert.asDict]: the comprehension keeps the fields that are set and
    writes their names with dashes. *)
Fixpoint asDict_items (items : list (string * attr)) (acc : dict pyval) : dict pyval :=
  match items with
  | [] => acc
  | (key, NotSet) :: rest => asDict_items rest acc
  | (key, Value value) :: rest =>
      asDict_items rest (dict_set (str_replace "_" "-" key) value acc)
  end.

Definition asDict (a : Alert) : dict pyval :=
  let python_dict := asdict a in
  asDict_items python_dict [].

(** ** Exceptions and results *)

Inductive exn :=
| AttributeError
    (* setting [loc_key] on a value that has no such attribute *)
| ConnectionError (cls : string)
    (* [aioapns.ConnectionError] or a subclass; [cls] is [e.__class__.__name__] *)
| APNSServerError (status : option string)
    (* [exceptions.APNSServerError(status=...)] *)
| ImproperlyConfigured (what : string)
    (* raised by the settings manager *)
| OtherError (cls : string)
    (* any other exception of the client library *)
| DanglingReference.
    (* not a Python exception: a reference to no object, which no Python
       program can hold; the embedding stops there *)

Inductive result (A : Type) :=
| Ok (a : A)
| Raise (e : exn).
Arguments Ok {A} a.
Arguments Raise {A} e.

(** ** The collaborators: credentials, client, request, provider answer *)

Inductive Credentials :=
| TokenCredentials (key key_id team_id : string)
| CertificateCredentials (client_cert : string).

(** A handle on the caller's error coroutine; the module only passes it on. *)
Inductive ErrFunc := ErrFuncHandle (n : nat).

(** [aioapns.APNs], as the keyword arguments [_create_client] builds it from. *)
Record APNs := mkAPNs {
  apns_creds : Credentials;
  apns_topic : option string;
  apns_use_sandbox : bool;
  apns_err_func : option ErrFunc
}.

(** [aioapns.NotificationRequest], as the arguments it is built from: the
    token, the message and the keyword dictionary
    [notification_request_kwargs_out].  What the constructor does with
    them is not followed: with no [notification_request_kwargs], as in
    both public calls, it takes them all; a keyword it does not know, or
    the token or the message given twice, it would refuse. *)
Record NotificationRequest := mkNotificationRequest {
  device_token : string;
  message : dict pyval;
  request_kwargs : dict kwval
}.

(** [aioapns.common.NotificationResult], the two attributes the module reads. *)
Record NotificationResult := mkNotificationResult {
  is_successful : bool;
  description : option string
}.

(** Modelled from the spec: the device registry ([models.APNSDevice], whose
    code is outside the sources) is a table of rows holding a token and an
    active flag; deactivation marks rows inactive and is idempotent. *)
Record APNSDevice := mkAPNSDevice {
  registration_id : string;
  active : bool
}.

Definition deactivate (d : APNSDevice) : APNSDevice :=
  mkAPNSDevice (registration_id d) false.

(** [APNSDevice.objects.filter(registration_id=rid).update(active=False)] *)
Definition filter_eq_update (rid : string) (ds : list APNSDevice) : list APNSDevice :=
  map (fun d => if String.eqb (registration_id d) rid then deactivate d else d) ds.

Definition str_in (s : string) (l : list string) : bool :=
  existsb (String.eqb s) l.

(** [APNSDevice.objects.filter(registration_id__in=tokens).update(active=False)] *)
Definition filter_in_update (tokens : list string) (ds : list APNSDevice) : list APNSDevice :=
  map (fun d => if str_in (registration_id d) tokens then deactivate d else d) ds.

(** ** The world *)

Definition loc := nat.

(** What the code does to the outside, in order. *)
Inductive event :=
| EvSend (client : APNs) (request : NotificationRequest)
    (* [client.send_notification(request)] run to completion *)
| EvUpdateEq (rid : string)
    (* one [filter(registration_id=rid).update(active=False)] *)
| EvUpdateIn (tokens : list string).
    (* one [filter(registration_id__in=tokens).update(active=False)] *)

Record World := mkWorld {
  heap : gmap loc Alert;
  devices : list APNSDevice;
  trace : list event
}.

(** What the code reads from the outside, taken as given.  The settings
    manager ([conf.get_manager()], whose code is outside the sources)
    answers by application id and may raise; the provider (the [aioapns]
    client run to completion) answers a send given everything done before
    it, with a result or an exception; the clock is [int(time.time())]. *)
Record Env := mkEnv {
  get_apns_use_sandbox : option string -> result bool;
  get_apns_topic : option string -> result (option string);
  has_auth_token_creds : option string -> result bool;
  get_apns_certificate : option string -> result string;
  get_apns_auth_creds : option string -> result (string * string * string);
  send_notification : list event -> APNs -> NotificationRequest -> result NotificationResult;
  time_time : list event -> Z
}.

(** ** The monad: state over [World], exceptions as [Raise] *)

Definition M (A : Type) : Type := World -> result A * World.

Definition ret {A} (a : A) : M A := fun w => (Ok a, w).

Definition raise {A} (e : exn) : M A := fun w => (Raise e, w).

Definition bind {A B} (m : M A) (k : A -> M B) : M B :=
  fun w =>
    match m w with
    | (Ok a, w') => k a w'
    | (Raise e, w') => (Raise e, w')
    end.

Definition lift {A} (r : result A) : M A := fun w => (r, w).

Declare Scope py_scope.
Delimit Scope py_scope with py.
Notation "x <- m ;; k" := (bind m (fun x => k))
  (at level 100, m at next level, right associativity) : py_scope.
Notation "m ;;; k" := (bind m (fun _ => k))
  (at level 100, right associativity) : py_scope.
Local Open Scope py_scope.

(** [try: m  except ConnectionError as e: raise APNSServerError(status=e.__class__.__name__)] *)
Definition except_ConnectionError {A} (m : M A) : M A :=
  fun w =>
    match m w with
    | (Raise (ConnectionError cls), w') => (Raise (APNSServerError (Some cls)), w')
    | r => r
    end.

Definition get_trace : M (list event) := fun w => (Ok (trace w), w).

Definition emit (e : event) : M unit :=
  fun w => (Ok tt, mkWorld (heap w) (devices w) (trace w ++ [e])).

(** The world with object [a] at address [l]. *)
Definition store (w : World) (l : loc) (a : Alert) : World :=
  mkWorld (<[l := a]> (heap w)) (devices w) (trace w).

(** The address the next new object gets: one no object lives at. *)
Definition next_loc (w : World) : loc := fresh (dom (heap w)).

(** Instantiating an [Alert]: a new object at an unused address. *)
Definition new_Alert (a : Alert) : M loc :=
  fun w => let l := next_loc w in (Ok l, store w l a).

Definition read_Alert (l : loc) : M Alert :=
  fun w =>
    match heap w !! l with
    | Some a => (Ok a, w)
    | None => (Raise DanglingReference, w)
    end.

Definition write_Alert (l : loc) (a : Alert) : M unit :=
  fun w => (Ok tt, store w l a).

Definition update_devices (e : event) (f : list APNSDevice -> list APNSDevice) : M unit :=
  fun w => (Ok tt, mkWorld (heap w) (f (devices w)) (trace w ++ [e])).

(** ** The service *)

(** The [alert] argument: plain data of the builtin kinds [pyval] lists
    ([None], booleans, integers, strings, lists, plain dicts) or a
    reference to an [Alert] instance.  Instances of other classes (a dict
    subclass, an object with attributes of its own) are outside it. *)
Inductive alert_arg :=
| AlertVal (v : pyval)
| AlertRef (l : loc).

(** Truth value of an optional string: [None] and [""] are false. *)
Definition truthy (s : option string) : bool :=
  match s with
  | Some s => negb (String.eqb s "")
  | None => false
  end.

Definition opt_int (z : option Z) : pyval :=
  match z with Some z => PyInt z | None => PyNone end.

Definition opt_str (s : option string) : pyval :=
  match s with Some s => PyStr s | None => PyNone end.

Definition opt_str_eqb (o : option string) (s : string) : bool :=
  match o with Some s' => String.eqb s' s | None => false end.

Record APNsService := mkAPNsService { client : APNs }.

Section Service.

Variable env : Env.

Definition now : M Z := fun w => (Ok (time_time env (trace w)), w).

(** [alert.loc_key = loc_key]: of the values of [alert_arg] only an
    [Alert] instance takes the attribute; the builtin kinds ([None],
    booleans, integers, strings, lists, plain dicts) raise
    [AttributeError]. *)
Definition setattr_loc_key (alert : alert_arg) (v : pyval) : M unit :=
  match alert with
  | AlertRef l => a <- read_Alert l ;; write_Alert l (set_loc_key a v)
  | AlertVal _ => raise AttributeError
  end.

(** [APNsService._create_notification_request_from_args].  The assignment
    of the push type to the keyword dictionary (line 175, indented with
    spaces between lines indented with tabs) is read at the level of its
    neighbours. *)
Definition _create_notification_request_from_args
    (registration_id : string) (alert : alert_arg)
    (badge : option Z) (sound : option string) (extra : dict pyval)
    (expiration : option Z) (thread_id : option string)
    (loc_key : option string) (priority : option Z)
    (collapse_id : option string)
    (aps_kwargs message_kwargs : dict pyval)
    (notification_request_kwargs : dict kwval) : M NotificationRequest :=
  let push_type := ALERT in
  st <- match alert with
        | AlertVal PyNone =>
            l <- new_Alert (Alert_body (PyStr "")) ;;
            ret (AlertRef l, BACKGROUND)
        | _ => ret (alert, push_type)
        end ;;
  let alert := fst st in
  let push_type := snd st in
  alert <- (if truthy loc_key then
              alert <- match alert with
                       | AlertVal (PyStr s) =>
                           l <- new_Alert (Alert_body (PyStr s)) ;;
                           ret (AlertRef l)
                       | _ => ret alert
                       end ;;
              setattr_loc_key alert (opt_str loc_key) ;;;
              ret alert
            else ret alert) ;;
  alert <- match alert with
           | AlertRef l => a <- read_Alert l ;; ret (PyDict (asDict a))
           | AlertVal v => ret v
           end ;;
  let notification_request_kwargs_out := dict_copy notification_request_kwargs in
  let notification_request_kwargs_out :=
    dict_set "push_type" (KwPushType push_type) notification_request_kwargs_out in
  notification_request_kwargs_out <-
    match expiration with
    | Some expiration =>
        t <- now ;;
        ret (dict_set "time_to_live" (KwVal (PyInt (expiration - t)))
               notification_request_kwargs_out)
    | None => ret notification_request_kwargs_out
    end ;;
  let notification_request_kwargs_out :=
    match priority with
    | Some priority =>
        dict_set "priority" (KwVal (PyInt priority)) notification_request_kwargs_out
    | None => notification_request_kwargs_out
    end in
  let notification_request_kwargs_out :=
    match collapse_id with
    | Some collapse_id =>
        dict_set "collapse_key" (KwVal (PyStr collapse_id)) notification_request_kwargs_out
    | None => notification_request_kwargs_out
    end in
  let aps :=
    dict_update
      (dict_display
         [ ("alert", alert);
           ("badge", opt_int badge);
           ("sound", opt_str sound);
           ("thread-id", opt_str thread_id) ])
      aps_kwargs in
  let request :=
    mkNotificationRequest
      registration_id
      (dict_update (dict_update (dict_display [("aps", PyDict aps)]) extra)
         message_kwargs)
      notification_request_kwargs_out in
  ret request.

Definition _get_credentials (application_id : option string) : M Credentials :=
  has <- lift (has_auth_token_creds env application_id) ;;
  if negb has then
    cert <- lift (get_apns_certificate env application_id) ;;
    ret (CertificateCredentials cert)
  else
    triple <- lift (get_apns_auth_creds env application_id) ;;
    let '(keyPath, keyId, teamId) := triple in
    ret (TokenCredentials keyPath keyId teamId).

Definition _create_client
    (creds : option Credentials) (application_id : option string)
    (topic : option string) (err_func : option ErrFunc) : M APNs :=
  use_sandbox <- lift (get_apns_use_sandbox env application_id) ;;
  topic <- match topic with
           | None => lift (get_apns_topic env application_id)
           | Some _ => ret topic
           end ;;
  creds <- match creds with
           | None => _get_credentials application_id
           | Some creds => ret creds
           end ;;
  let client := mkAPNs creds topic use_sandbox err_func in
  ret client.

(** [APNsService.__init__]; attaching an event loop leaves no trace here. *)
Definition APNsService_init
    (application_id : option string) (creds : option Credentials)
    (topic : option string) (err_func : option ErrFunc) : M APNsService :=
  client <- _create_client creds application_id topic err_func ;;
  ret (mkAPNsService client).

(** [APNsService.send_message]: the provider sees what was done before. *)
Definition send_message (self : APNsService) (request : NotificationRequest)
  : M NotificationResult :=
  before <- get_trace ;;
  emit (EvSend (client self) request) ;;;
  lift (send_notification env before (client self) request).

(** ** Public interface *)

Definition apns_send_message
    (registration_id : string) (alert : alert_arg)
    (application_id : option string) (creds : option Credentials)
    (topic : option string) (badge : option Z) (sound : option string)
    (extra : dict pyval) (expiration : option Z) (thread_id : option string)
    (loc_key : option string) (priority : option Z)
    (collapse_id : option string) (err_func : option ErrFunc) : M unit :=
  except_ConnectionError
    (apns_service <- APNsService_init application_id creds topic err_func ;;
     request <- _create_notification_request_from_args
                  registration_id alert badge sound extra expiration
                  thread_id loc_key priority collapse_id [] [] [] ;;
     res <- send_message apns_service request ;;
     if negb (is_successful res) then
       (if opt_str_eqb (description res) "Unregistered"
        then update_devices (EvUpdateEq registration_id)
               (filter_eq_update registration_id)
        else ret tt) ;;;
       raise (APNSServerError (description res))
     else ret tt).

(** The body of [for registration_id in registration_ids:], carrying
    [results] and [inactive_tokens]. *)
Fixpoint bulk_loop
    (apns_service : APNsService) (registration_ids : list string)
    (alert : alert_arg) (content_available : Z)
    (badge : option Z) (sound : option string)
    (extra : dict pyval) (expiration : option Z) (thread_id : option string)
    (loc_key : option string) (priority : option Z)
    (collapse_id : option string)
    (results : dict (option string)) (inactive_tokens : list string)
  : M (dict (option string) * list string) :=
  match registration_ids with
  | [] => ret (results, inactive_tokens)
  | registration_id :: rest =>
      request <- _create_notification_request_from_args
                   registration_id alert badge sound extra expiration
                   thread_id loc_key priority collapse_id
                   [("content-available", PyInt content_available)] [] [] ;;
      result <- send_message apns_service request ;;
      let results :=
        dict_set registration_id
          (if is_successful result then Some "Success" else description result)
          results in
      let inactive_tokens :=
        if negb (is_successful result)
           && opt_str_eqb (description result) "Unregistered"
        then (inactive_tokens ++ [registration_id])%list
        else inactive_tokens in
      bulk_loop apns_service rest alert content_available badge sound extra
        expiration thread_id loc_key priority collapse_id results inactive_tokens
  end.

Definition apns_send_bulk_message
    (registration_ids : list string) (alert : alert_arg)
    (content_available : Z)
    (application_id : option string) (creds : option Credentials)
    (topic : option string) (badge : option Z) (sound : option string)
    (extra : dict pyval) (expiration : option Z) (thread_id : option string)
    (loc_key : option string) (priority : option Z)
    (collapse_id : option string) (err_func : option ErrFunc)
  : M (dict (option string)) :=
  topic <- lift (get_apns_topic env application_id) ;;
  let results : dict (option string) := [] in
  let inactive_tokens : list string := [] in
  apns_service <- APNsService_init application_id creds topic err_func ;;
  st <- bulk_loop apns_service registration_ids alert content_available badge
          sound extra expiration thread_id loc_key priority collapse_id
          results inactive_tokens ;;
  let results := fst st in
  let inactive_tokens := snd st in
  (if (0 <? length inactive_tokens)%nat
   then update_devices (EvUpdateIn inactive_tokens)
          (filter_in_update inactive_tokens)
   else ret tt) ;;;
  ret results.

End Service.

(** ** Reading a built request *)

(** The [aps] object of the message, when the message has one. *)
Definition payload_aps (r : NotificationRequest) : option (dict pyval) :=
  match dict_get "aps" (message r) with
  | Some (PyDict d) => Some d
  | _ => None
  end.

Definition payload_alert (r : NotificationRequest) : option pyval :=
  match payload_aps r with
  | Some d => dict_get "alert" d
  | None => None
  end.

Definition payload_push_type (r : NotificationRequest) : option kwval :=
  dict_get "push_type" (request_kwargs r).

(** The entries [Alert.asDict] keeps of a list of fields. *)
Definition set_fields (items : list (string * attr)) : dict pyval :=
  omap (fun kv => match snd kv with
                  | Value x => Some (str_replace "_" "-" (fst kv), x)
                  | NotSet => None
                  end) items.

(** The entries of a list of named fields that are set, under the names
    they come with. *)
Definition fields_that_are_set (items : list (string * attr)) : dict pyval :=
  omap (fun kv => match snd kv with
                  | Value x => Some (fst kv, x)
                  | NotSet => None
                  end) items.


(** The push type the builder settles on: background without an alert. *)
Definition push_type_for (alert : alert_arg) : PushType :=
  match alert with
  | AlertVal PyNone => BACKGROUND
  | _ => ALERT
  end.

(** The alert is outside the three kinds the builder looks for. *)
Definition other_kind (alert : alert_arg) : bool :=
  match alert with
  | AlertVal PyNone => false
  | AlertVal (PyStr _) => false
  | AlertVal _ => true
  | AlertRef _ => false
  end.

(** Every reference the caller passes points to an object. *)
Definition well_formed (w : World) (alert : alert_arg) : Prop :=
  match alert with
  | AlertRef l => is_Some (heap w !! l)
  | AlertVal _ => True
  end.

(** The event is an update of the device table. *)
Definition is_update (e : event) : bool :=
  match e with EvSend _ _ => false | _ => true end.

(** A settings manager that answers every lookup, a provider that rejects
    the token ["xyz"] as unregistered, cannot be reached for ["boom"] and
    accepts the rest, and a clock stopped at 1000. *)
Definition demo_env : Env :=
  mkEnv
    (fun _ => Ok true)
    (fun _ => Ok (Some "com.example.app"))
    (fun _ => Ok false)
    (fun _ => Ok "cert.pem")
    (fun _ => Ok ("key.p8", "KEYID", "TEAMID"))
    (fun _ _ r =>
       if String.eqb (device_token r) "xyz"
       then Ok (mkNotificationResult false (Some "Unregistered"))
       else if String.eqb (device_token r) "boom"
       then Raise (ConnectionError "MaxAttemptsExceeded")
       else Ok (mkNotificationResult true None))
    (fun _ => 1000).

(** The same with a provider that answers every send. *)
Definition answering_env : Env :=
  mkEnv
    (fun _ => Ok true)
    (fun _ => Ok (Some "com.example.app"))
    (fun _ => Ok false)
    (fun _ => Ok "cert.pem")
    (fun _ => Ok ("key.p8", "KEYID", "TEAMID"))
    (fun _ _ r =>
       if String.eqb (device_token r) "xyz"
       then Ok (mkNotificationResult false (Some "Unregistered"))
       else Ok (mkNotificationResult true None))
    (fun _ => 1000).

(** The same with a provider no send gets through to in time: every send
    raises a timeout, which is no [aioapns.ConnectionError]. *)
Definition timeout_env : Env :=
  mkEnv
    (get_apns_use_sandbox demo_env) (get_apns_topic demo_env)
    (has_auth_token_creds demo_env) (get_apns_certificate demo_env)
    (get_apns_auth_creds demo_env)
    (fun _ _ _ => Raise (OtherError "TimeoutError"))
    (time_time demo_env).

(** The same with a clock that ticks once for each thing done. *)
Definition ticking_env : Env :=
  mkEnv
    (get_apns_use_sandbox demo_env) (get_apns_topic demo_env)
    (has_auth_token_creds demo_env) (get_apns_certificate demo_env)
    (get_apns_auth_creds demo_env) (send_notification demo_env)
    (fun before => 1000 + Z.of_nat (length before)).

(** The client the service builds from [demo_env] when it is given neither
    credentials nor a topic. *)
Definition demo_client : APNs :=
  mkAPNs (CertificateCredentials "cert.pem") (Some "com.example.app") true None.

(** The request of the single call for the alert ["Hello"], all else unset. *)
Definition demo_request (rid : string) : NotificationRequest :=
  mkNotificationRequest rid
    [("aps",
      PyDict [("alert", PyStr "Hello"); ("badge", PyNone);
              ("sound", PyNone); ("thread-id", PyNone)])]
    [("push_type", KwPushType ALERT)].

(** The same request as the bulk call builds it. *)
Definition demo_bulk_request (rid : string) : NotificationRequest :=
  mkNotificationRequest rid
    [("aps",
      PyDict [("alert", PyStr "Hello"); ("badge", PyNone);
              ("sound", PyNone); ("thread-id", PyNone);
              ("content-available", PyInt 0)])]
    [("push_type", KwPushType ALERT)].

Definition demo_world : World :=
  mkWorld ∅ [mkAPNSDevice "xyz" true; mkAPNSDevice "abc" true] [].

(** ** What the proofs speak of *)

(** What the builder makes once the alert and the push type are settled
    (from the copy of the keyword dictionary on): the request for alert
    value [v] and push type [p] in world [w]. *)
Definition request_of (env : Env) (w : World)
    (rid : string) (v : pyval) (p : PushType)
    (badge : option Z) (snd : option string) (extra : dict pyval)
    (expiration : option Z) (thread_id : option string) (priority : option Z)
    (collapse_id : option string) (aps_kwargs message_kwargs : dict pyval)
    (nrk : dict kwval) : NotificationRequest :=
  let kw := dict_set "push_type" (KwPushType p) nrk in
  let kw := match expiration with
            | Some e => dict_set "time_to_live" (KwVal (PyInt (e - time_time env (trace w)))) kw
            | None => kw
            end in
  let kw := match priority with
            | Some n => dict_set "priority" (KwVal (PyInt n)) kw
            | None => kw
            end in
  let kw := match collapse_id with
            | Some c => dict_set "collapse_key" (KwVal (PyStr c)) kw
            | None => kw
            end in
  mkNotificationRequest rid
    (dict_update
       (dict_update
          (dict_display
             [("aps",
               PyDict
                 (dict_update
                    (dict_display
                       [("alert", v); ("badge", opt_int badge);
                        ("sound", opt_str snd); ("thread-id", opt_str thread_id)])
                    aps_kwargs))])
          extra)
       message_kwargs)
    kw.

(** The provider's answer is the one the code deactivates a token for. *)
Definition unregistered (answer : result NotificationResult) : bool :=
  match answer with
  | Ok res => negb (is_successful res) && opt_str_eqb (description res) "Unregistered"
  | Raise _ => false
  end.

(** The outcome description the bulk call records for an answer. *)
Definition outcome_description (res : NotificationResult) : option string :=
  if is_successful res then Some "Success" else description res.

(** The tokens of the sends in a list of events, in order. *)
Definition sent_tokens (evs : list event) : list string :=
  omap (fun e => match e with
                 | EvSend _ r => Some (device_token r)
                 | _ => None
                 end) evs.

(** Replaying the sends [evs] made after [before]: the tokens whose send
    the provider answered with the reason "Unregistered", one entry per
    such send, in order. *)
Fixpoint unregistered_tokens (env : Env) (before evs : list event) : list string :=
  match evs with
  | [] => []
  | EvSend c r :: rest =>
      ((if unregistered (send_notification env before c r)
        then [device_token r] else [])
         ++ unregistered_tokens env (before ++ [EvSend c r]) rest)%list
  | e :: rest => unregistered_tokens env (before ++ [e]) rest
  end.

(** Replaying the sends [evs] made after [before]: the outcome recorded
    for each token, a later send of a token replacing an earlier one. *)
Fixpoint recorded_outcomes (env : Env) (before evs : list event)
    (results : dict (option string)) : dict (option string) :=
  match evs with
  | [] => results
  | EvSend c r :: rest =>
      match send_notification env before c r with
      | Ok res =>
          recorded_outcomes env (before ++ [EvSend c r]) rest
            (dict_set (device_token r) (outcome_description res) results)
      | Raise _ => results
      end
  | e :: rest => recorded_outcomes env (before ++ [e]) rest results
  end.

(** Every event of [evs] is a send through [c]. *)
Definition sends_through (c : APNs) (evs : list event) : Prop :=
  Forall (fun e => exists r, e = EvSend c r) evs.

(** A computation that leaves the world as it found it. *)
Definition pure {A} (m : M A) : Prop := forall w, snd (m w) = w.

(** The world after one more send. *)
Definition sent (w : World) (c : APNs) (request : NotificationRequest) : World :=
  mkWorld (heap w) (devices w) (trace w ++ [EvSend c request]).

(** The world after one more send and the deactivation of its token. *)
Definition sent_and_deactivated (w : World) (c : APNs)
    (request : NotificationRequest) (rid : string) : World :=
  mkWorld (heap w) (filter_eq_update rid (devices w))
    (trace w ++ [EvSend c request; EvUpdateEq rid]).

(** What [apns_send_message] ends with once the service and the request
    exist, by the provider's answer. *)
Definition single_outcome (w1 : World) (c : APNs)
    (request : NotificationRequest) (rid : string)
    (answer : result NotificationResult) : result unit * World :=
  match answer with
  | Ok res =>
      if is_successful res then (Ok tt, sent w1 c request)
      else if opt_str_eqb (description res) "Unregistered"
           then (Raise (APNSServerError (description res)),
                 sent_and_deactivated w1 c request rid)
           else (Raise (APNSServerError (description res)), sent w1 c request)
  | Raise (ConnectionError cls) =>
      (Raise (APNSServerError (Some cls)), sent w1 c request)
  | Raise e => (Raise e, sent w1 c request)
  end.

(** The value the builder puts under ["alert"], read off the alert, the
    localisation key and the objects of the heap [h]. *)
Definition alert_value (h : gmap loc Alert) (alert : alert_arg)
    (lk : option string) : pyval :=
  match alert with
  | AlertVal PyNone =>
      PyDict (asDict (if truthy lk
                      then set_loc_key (Alert_body (PyStr "")) (opt_str lk)
                      else Alert_body (PyStr "")))
  | AlertVal (PyStr s) =>
      if truthy lk
      then PyDict (asDict (set_loc_key (Alert_body (PyStr s)) (opt_str lk)))
      else PyStr s
  | AlertVal v => v
  | AlertRef l =>
      match h !! l with
      | Some a => PyDict (asDict (if truthy lk then set_loc_key a (opt_str lk) else a))
      | None => PyNone
      end
  end.

(** A world known by its trace only, for what reads nothing else. *)
Definition at_trace (tr : list event) : World := mkWorld ∅ [] tr.

(** The sends a bulk call makes when none fails: one per token, in order,
    each request built after the sends before it. *)
Fixpoint batch_sends (env : Env) (c : APNs) (v : pyval) (p : PushType)
    (content_available : Z) (badge : option Z) (snd : option string)
    (extra : dict pyval) (expiration : option Z) (thread_id : option string)
    (priority : option Z) (collapse_id : option string)
    (before : list event) (ids : list string) : list event :=
  match ids with
  | [] => []
  | rid :: rest =>
      let r :=
        request_of env (at_trace before) rid v p badge snd extra expiration
          thread_id priority collapse_id
          [("content-available", PyInt content_available)] [] [] in
      EvSend c r
        :: batch_sends env c v p content_available badge snd extra expiration
             thread_id priority collapse_id (before ++ [EvSend c r]) rest
  end.

(** What [apns_send_message] raises for an exception raised inside it. *)
Definition translated (e : exn) : exn :=
  match e with
  | ConnectionError cls => APNSServerError (Some cls)
  | _ => e
  end.

(** The object [a] is one the builder leaves as it is: it is not the
    alert, or no localisation key is to be set, or it holds the key. *)
Definition settled (alert : alert_arg) (lk : option string) (l : loc)
    (a : Alert) : Prop :=
  alert = AlertRef l -> truthy lk = true -> set_loc_key a (opt_str lk) = a.

(** The lookup in [d] unless [src] has the key. *)
Definition overridden_by {V} (src : dict V) (k : string) (d : option V) : option V :=
  match dict_get k src with
  | Some v => Some v
  | None => d
  end.

(** A computation that leaves the object [a] at address [l] as it is. *)
Definition keeps_object {A} (l : loc) (a : Alert) (m : M A) : Prop :=
  forall w out w',
    m w = (out, w') -> heap w !! l = Some a -> heap w' !! l = Some a.

(** ** Dictionaries *)

Section DictFacts.

Context {V : Type}.
Implicit Types (d src : dict V) (k : string) (v : V).

Lemma dict_get_set_eq k v d : dict_get k (dict_set k v d) = Some v.
Proof.
  induction d as [|[k' v'] d IH]; simpl.
  - by rewrite String.eqb_refl.
  - destruct (String.eqb k' k) eqn:E; simpl; rewrite E; auto.
Qed.

Lemma dict_get_set_ne k k' v d :
  k <> k' -> dict_get k (dict_set k' v d) = dict_get k d.
Proof.
  intros Hne. induction d as [|[k0 v0] d IH]; simpl.
  - destruct (String.eqb k' k) eqn:E; auto.
    apply String.eqb_eq in E. congruence.
  - destruct (String.eqb k0 k') eqn:E; simpl.
    + apply String.eqb_eq in E. subst k0.
      destruct (String.eqb k' k) eqn:E'; auto.
      apply String.eqb_eq in E'. congruence.
    + destruct (String.eqb k0 k); auto.
Qed.

Lemma dict_get_update_absent k d src :
  dict_has k src = false -> dict_get k (dict_update d src) = dict_get k d.
Proof.
  unfold dict_update, dict_has. revert d.
  induction src as [|[k' v'] src IH]; intros d H; simpl in *; auto.
  destruct (String.eqb k' k) eqn:E; [discriminate|].
  rewrite IH by exact H.
  apply dict_get_set_ne. intros ->. by rewrite String.eqb_refl in E.
Qed.

End DictFacts.

(** The keys after setting one. *)
Lemma dict_keys_set {V} (k k' : string) (v : V) (d : dict V) :
  In k (dict_keys (dict_set k' v d)) <-> k = k' \/ In k (dict_keys d).
Proof.
  induction d as [|[k0 v0] d IH]; simpl.
  - intuition.
  - destruct (String.eqb k0 k') eqn:E; simpl.
    + apply String.eqb_eq in E. subst k0. intuition.
    + rewrite IH. intuition.
Qed.

Lemma dict_get_keys {V} (k : string) (d : dict V) :
  is_Some (dict_get k d) <-> In k (dict_keys d).
Proof.
  induction d as [|[k0 v0] d IH]; simpl.
  - split; [by intros [? ?]|tauto].
  - destruct (String.eqb k0 k) eqn:E.
    + apply String.eqb_eq in E. subst. split; eauto.
    + rewrite IH. split; [tauto|]. intros [->|H]; [|done].
      by rewrite String.eqb_refl in E.
Qed.

Lemma dict_get_absent {V} (k : string) (d : dict V) :
  k ∉ dict_keys d -> dict_get k d = None.
Proof.
  intros Hk. destruct (dict_get k d) as [v|] eqn:E; [|reflexivity].
  exfalso. apply Hk, list_elem_of_In, dict_get_keys. eauto.
Qed.

(** Updating a dictionary from another whose keys are distinct: the other
    one's entries win, the rest stays. *)
Lemma dict_get_update {V} (k : string) (src : dict V) :
  forall d,
    NoDup (dict_keys src) ->
    dict_get k (dict_update d src) = overridden_by src k (dict_get k d).
Proof.
  unfold dict_update, overridden_by.
  induction src as [|[k' v'] src IH]; intros d Hnd; simpl; [reflexivity|].
  apply NoDup_cons in Hnd. destruct Hnd as [Hk' Hnd].
  rewrite IH by exact Hnd.
  destruct (String.eqb k' k) eqn:E.
  - apply String.eqb_eq in E. subst k'.
    by rewrite dict_get_absent, dict_get_set_eq.
  - rewrite dict_get_set_ne; [reflexivity|].
    intros ->. by rewrite String.eqb_refl in E.
Qed.

(** The keys after an update are the keys before and the keys added. *)
Lemma dict_keys_update {V} (k : string) (src : dict V) :
  forall d,
    In k (dict_keys (dict_update d src)) <->
    In k (dict_keys d) \/ In k (dict_keys src).
Proof.
  unfold dict_update.
  induction src as [|[k' v'] src IH]; intros d; simpl; [tauto|].
  rewrite IH, dict_keys_set. intuition.
Qed.



(** ** The payload builder *)

Ltac unfold_monad :=
  unfold bind, ret, raise, lift, now, get_trace, emit, new_Alert, read_Alert,
    write_Alert, update_devices, setattr_loc_key in *.

Section Builder.

Variable env : Env.

Implicit Types (w : World) (r : NotificationRequest) (alert : alert_arg).

Section Cases.

Variables (rid : string) (badge : option Z) (snd : option string)
  (extra : dict pyval) (expiration : option Z) (thread_id : option string)
  (lk : option string) (priority : option Z) (collapse_id : option string)
  (aps_kwargs message_kwargs : dict pyval) (nrk : dict kwval).

Let build (alert : alert_arg) : M NotificationRequest :=
  _create_notification_request_from_args env rid alert badge snd extra
    expiration thread_id lk priority collapse_id aps_kwargs message_kwargs nrk.

Let req (w : World) (v : pyval) (p : PushType) : NotificationRequest :=
  request_of env w rid v p badge snd extra expiration thread_id priority
    collapse_id aps_kwargs message_kwargs nrk.

Ltac steps :=
  repeat progress
    (unfold_monad; unfold dict_copy, store, next_loc; simpl;
     rewrite ?lookup_insert_eq).

Ltac run_build :=
  unfold build, req, request_of, _create_notification_request_from_args;
  steps.

Ltac finish_build :=
  destruct expiration, priority, collapse_id; reflexivity.

(** No alert, no localisation key: a fresh [Alert(body="")] is turned into
    a dictionary and the push is a background one. *)
Lemma build_none_plain w :
  truthy lk = false ->
  build (AlertVal PyNone) w =
    (Ok (req w (PyDict (asDict (Alert_body (PyStr "")))) BACKGROUND),
     store w (next_loc w) (Alert_body (PyStr ""))).
Proof.
  intros Hk. run_build. rewrite Hk. steps. finish_build.
Qed.

(** No alert, with a localisation key: the key is set on the fresh object. *)
Lemma build_none_loc w :
  truthy lk = true ->
  build (AlertVal PyNone) w =
    (Ok (req w (PyDict (asDict (set_loc_key (Alert_body (PyStr "")) (opt_str lk))))
           BACKGROUND),
     store (store w (next_loc w) (Alert_body (PyStr "")))
       (next_loc w) (set_loc_key (Alert_body (PyStr "")) (opt_str lk))).
Proof.
  intros Hk. run_build. rewrite Hk. steps. finish_build.
Qed.

(** A string and no localisation key: the string is the alert. *)
Lemma build_str_plain w s :
  truthy lk = false ->
  build (AlertVal (PyStr s)) w = (Ok (req w (PyStr s) ALERT), w).
Proof.
  intros Hk. run_build. rewrite Hk. steps. destruct w. finish_build.
Qed.

(** A string with a localisation key: both go into a fresh [Alert]. *)
Lemma build_str_loc w s :
  truthy lk = true ->
  build (AlertVal (PyStr s)) w =
    (Ok (req w (PyDict (asDict (set_loc_key (Alert_body (PyStr s)) (opt_str lk))))
           ALERT),
     store (store w (next_loc w) (Alert_body (PyStr s)))
       (next_loc w) (set_loc_key (Alert_body (PyStr s)) (opt_str lk))).
Proof.
  intros Hk. run_build. rewrite Hk. steps. finish_build.
Qed.

(** An [Alert] instance and no localisation key: the instance is only read. *)
Lemma build_ref_plain w l a :
  heap w !! l = Some a ->
  truthy lk = false ->
  build (AlertRef l) w = (Ok (req w (PyDict (asDict a)) ALERT), w).
Proof.
  intros Hl Hk. run_build. rewrite Hk. steps. rewrite Hl.
  destruct w. finish_build.
Qed.

(** An [Alert] instance with a localisation key: the key is written into
    the instance the caller holds. *)
Lemma build_ref_loc w l a :
  heap w !! l = Some a ->
  truthy lk = true ->
  build (AlertRef l) w =
    (Ok (req w (PyDict (asDict (set_loc_key a (opt_str lk)))) ALERT),
     store w l (set_loc_key a (opt_str lk))).
Proof.
  intros Hl Hk. run_build. rewrite Hk. steps. rewrite Hl. steps.
  finish_build.
Qed.

(** Any other value and no localisation key: the value goes through. *)
Lemma build_other_plain w v :
  other_kind (AlertVal v) = true ->
  truthy lk = false ->
  build (AlertVal v) w = (Ok (req w v ALERT), w).
Proof.
  intros Hv Hk. destruct v; try discriminate Hv;
    run_build; rewrite Hk; steps; destruct w; finish_build.
Qed.

(** Any other value with a localisation key: the attribute cannot be set. *)
Lemma build_other_loc w v :
  other_kind (AlertVal v) = true ->
  truthy lk = true ->
  build (AlertVal v) w = (Raise AttributeError, w).
Proof.
  intros Hv Hk. destruct v; try discriminate Hv;
    run_build; rewrite Hk; steps; destruct w; reflexivity.
Qed.

(** A reference to no object stops the builder where it reads it. *)
Lemma build_dangling w l :
  heap w !! l = None ->
  build (AlertRef l) w = (Raise DanglingReference, w).
Proof.
  intros Hl. run_build.
  destruct (truthy lk); steps; rewrite Hl; steps; by destruct w.
Qed.

(** The nine ways through the builder: a property of its run holds as soon
    as it holds of each. *)
Lemma build_cases alert w (P : result NotificationRequest * World -> Prop) :
  (alert = AlertVal PyNone -> truthy lk = false ->
   P (Ok (req w (PyDict (asDict (Alert_body (PyStr "")))) BACKGROUND),
      store w (next_loc w) (Alert_body (PyStr "")))) ->
  (alert = AlertVal PyNone -> truthy lk = true ->
   P (Ok (req w (PyDict (asDict (set_loc_key (Alert_body (PyStr "")) (opt_str lk))))
            BACKGROUND),
      store (store w (next_loc w) (Alert_body (PyStr "")))
        (next_loc w) (set_loc_key (Alert_body (PyStr "")) (opt_str lk)))) ->
  (forall s, alert = AlertVal (PyStr s) -> truthy lk = false ->
   P (Ok (req w (PyStr s) ALERT), w)) ->
  (forall s, alert = AlertVal (PyStr s) -> truthy lk = true ->
   P (Ok (req w (PyDict (asDict (set_loc_key (Alert_body (PyStr s)) (opt_str lk))))
            ALERT),
      store (store w (next_loc w) (Alert_body (PyStr s)))
        (next_loc w) (set_loc_key (Alert_body (PyStr s)) (opt_str lk)))) ->
  (forall l a, alert = AlertRef l -> heap w !! l = Some a -> truthy lk = false ->
   P (Ok (req w (PyDict (asDict a)) ALERT), w)) ->
  (forall l a, alert = AlertRef l -> heap w !! l = Some a -> truthy lk = true ->
   P (Ok (req w (PyDict (asDict (set_loc_key a (opt_str lk)))) ALERT),
      store w l (set_loc_key a (opt_str lk)))) ->
  (forall v, alert = AlertVal v -> other_kind alert = true ->
   truthy lk = false ->
   P (Ok (req w v ALERT), w)) ->
  (forall v, alert = AlertVal v -> other_kind alert = true ->
   truthy lk = true ->
   P (Raise AttributeError, w)) ->
  (forall l, alert = AlertRef l -> heap w !! l = None ->
   P (Raise DanglingReference, w)) ->
  P (build alert w).
Proof.
  intros Hnp Hnl Hsp Hsl Hrp Hrl Hop Hol Hd.
  destruct alert as [v|l].
  - destruct (other_kind (AlertVal v)) eqn:Hv; destruct (truthy lk) eqn:Hk.
    + rewrite build_other_loc by assumption. eauto.
    + rewrite build_other_plain by assumption. eauto.
    + destruct v; try discriminate Hv.
      * rewrite build_none_loc by assumption. eauto.
      * rewrite build_str_loc by assumption. eauto.
    + destruct v; try discriminate Hv.
      * rewrite build_none_plain by assumption. eauto.
      * rewrite build_str_plain by assumption. eauto.
  - destruct (heap w !! l) as [a|] eqn:Hl.
    + destruct (truthy lk) eqn:Hk.
      * rewrite build_ref_loc with (a := a) by assumption. eauto.
      * rewrite build_ref_plain with (a := a) by assumption. eauto.
    + rewrite build_dangling by assumption. eauto.
Qed.

(** Building touches the heap only: nothing is sent, no device is updated. *)
Lemma build_frame alert w out w' :
  build alert w = (out, w') ->
  trace w' = trace w /\ devices w' = devices w.
Proof.
  revert out w'.
  apply (build_cases alert w
           (fun run => forall out w', run = (out, w') ->
                       trace w' = trace w /\ devices w' = devices w));
    intros; by simplify_eq.
Qed.

(** A request the builder returns is for the token it was given and has
    the push type the alert decides. *)
Lemma build_request alert w r w' :
  build alert w = (Ok r, w') ->
  exists v, r = req w v (push_type_for alert).
Proof.
  revert r w'.
  apply (build_cases alert w
           (fun run => forall r w', run = (Ok r, w') ->
                       exists v, r = req w v (push_type_for alert)));
    intros; simplify_eq; eauto.
  destruct v; try discriminate; eauto.
Qed.

Lemma build_token alert w r w' :
  build alert w = (Ok r, w') -> device_token r = rid.
Proof. intros H. by destruct (build_request _ _ _ _ H) as [v ->]. Qed.

(** The objects that exist before the builder runs exist after it. *)
Lemma build_keeps_objects alert w out w' l :
  build alert w = (out, w') ->
  is_Some (heap w !! l) -> is_Some (heap w' !! l).
Proof.
  revert out w'.
  apply (build_cases alert w
           (fun run => forall out w', run = (out, w') ->
                       is_Some (heap w !! l) -> is_Some (heap w' !! l)));
    intros; simplify_eq; simpl; auto;
    repeat (apply lookup_insert_is_Some'; right); auto.
Qed.

(** A request the builder returns holds the alert's value, and building
    leaves that value as it is: the next request from the same alert will
    hold it too. *)
Lemma build_value alert w r w' :
  build alert w = (Ok r, w') ->
  r = req w (alert_value (heap w) alert lk) (push_type_for alert)
  /\ alert_value (heap w') alert lk = alert_value (heap w) alert lk.
Proof.
  revert r w'.
  apply (build_cases alert w
           (fun run => forall r w', run = (Ok r, w') ->
              r = req w (alert_value (heap w) alert lk) (push_type_for alert)
              /\ alert_value (heap w') alert lk
                 = alert_value (heap w) alert lk));
    intros; simplify_eq; simpl;
    repeat match goal with
           | H : truthy lk = _ |- _ => rewrite H
           | H : heap _ !! _ = Some _ |- _ => rewrite H
           end;
    rewrite ?lookup_insert_eq; auto.
  match goal with
  | H : other_kind (AlertVal ?v) = true |- _ => by destruct v
  end.
Qed.

(** The builder returns a request unless it is asked to set a
    localisation key on a value that takes none. *)
Lemma build_returns alert w :
  well_formed w alert ->
  other_kind alert && truthy lk = false ->
  exists r w', build alert w = (Ok r, w').
Proof.
  apply (build_cases alert w
           (fun run => well_formed w alert ->
                       other_kind alert && truthy lk = false ->
                       exists r w', run = (Ok r, w')));
    intros; simplify_eq; eauto.
  - match goal with
    | Ho : other_kind _ = true, Ht : truthy _ = true, H : _ && _ = false |- _ =>
        rewrite Ho, Ht in H; discriminate H
    end.
  - match goal with
    | Hwf : well_formed _ (AlertRef _), Hn : _ !! _ = None |- _ =>
        destruct Hwf as [a Ha]; congruence
    end.
Qed.

End Cases.

End Builder.

(** ** Reading what the builder built *)

Section Reading.

Variable env : Env.

Variables (w : World) (rid : string) (v : pyval) (p : PushType)
  (badge : option Z) (snd : option string) (extra : dict pyval)
  (expiration : option Z) (thread_id : option string) (priority : option Z)
  (collapse_id : option string) (aps_kwargs message_kwargs : dict pyval)
  (nrk : dict kwval).

Let the_request : NotificationRequest :=
  request_of env w rid v p badge snd extra expiration thread_id priority
    collapse_id aps_kwargs message_kwargs nrk.

(** The keyword dictionary keeps the push type whatever else is set. *)
Lemma request_push_type :
  payload_push_type the_request = Some (KwPushType p).
Proof.
  unfold payload_push_type, the_request, request_of; simpl.
  destruct collapse_id, priority, expiration;
    repeat (rewrite dict_get_set_ne by discriminate);
    apply dict_get_set_eq.
Qed.

(** The [aps] object, unless [extra] or [message_kwargs] replace it. *)
Lemma request_aps :
  dict_has "aps" extra = false ->
  dict_has "aps" message_kwargs = false ->
  payload_aps the_request =
    Some (dict_update
            (dict_display
               [("alert", v); ("badge", opt_int badge);
                ("sound", opt_str snd); ("thread-id", opt_str thread_id)])
            aps_kwargs).
Proof.
  intros He Hm. unfold payload_aps, the_request, request_of; simpl.
  by rewrite !dict_get_update_absent by assumption.
Qed.

(** The alert, unless [aps_kwargs] replaces it too. *)
Lemma request_alert :
  dict_has "alert" aps_kwargs = false ->
  dict_has "aps" extra = false ->
  dict_has "aps" message_kwargs = false ->
  payload_alert the_request = Some v.
Proof.
  intros Ha He Hm. unfold payload_alert. rewrite request_aps by assumption.
  by rewrite dict_get_update_absent by assumption.
Qed.

End Reading.

(** ** The builder: what the payload holds *)

(** C1 (the code at the input that breaks it): for every token, with the
    alert absent and every other argument at its default, the builder
    returns a background push whose [aps] object does have an ["alert"]
    key, mapped to the dictionary of [Alert(body="")]. *)
Theorem silent_push_has_alert_key (env : Env) (w : World) (rid : string) :
  exists r w',
    _create_notification_request_from_args env rid (AlertVal PyNone)
      None None [] None None None None None [] [] [] w = (Ok r, w')
    /\ payload_push_type r = Some (KwPushType BACKGROUND)
    /\ exists d, payload_aps r = Some d /\ dict_has "alert" d = true.
Proof.
  rewrite build_none_plain by reflexivity.
  do 2 eexists. split; [reflexivity|]. split.
  - apply request_push_type.
  - eexists. split; [apply request_aps; reflexivity|]. reflexivity.
Qed.

(** C2: with the alert absent and no localisation key, the [aps] object
    maps ["alert"] to [{"body": ""}] and the push type is background,
    whatever the other fields are, as long as no keyword dictionary
    replaces the alert or the [aps] object. *)
Theorem absent_alert_payload (env : Env) (w : World) (rid : string)
    (badge : option Z) (snd : option string) (extra : dict pyval)
    (expiration : option Z) (thread_id lk : option string)
    (priority : option Z) (collapse_id : option string)
    (aps_kwargs message_kwargs : dict pyval) (nrk : dict kwval) :
  truthy lk = false ->
  dict_has "alert" aps_kwargs = false ->
  dict_has "aps" extra = false ->
  dict_has "aps" message_kwargs = false ->
  exists r w',
    _create_notification_request_from_args env rid (AlertVal PyNone)
      badge snd extra expiration thread_id lk priority collapse_id
      aps_kwargs message_kwargs nrk w = (Ok r, w')
    /\ payload_alert r = Some (PyDict [("body", PyStr "")])
    /\ payload_push_type r = Some (KwPushType BACKGROUND).
Proof.
  intros Hk Ha He Hm. rewrite build_none_plain by assumption.
  do 2 eexists. split; [reflexivity|]. split.
  - by rewrite request_alert by assumption.
  - apply request_push_type.
Qed.

(** C2 at the intent [{alert: None}] for token ["abc"]. *)
Lemma absent_alert_payload_witness :
  exists r w',
    _create_notification_request_from_args demo_env "abc" (AlertVal PyNone)
      None None [] None None None None None [] [] [] demo_world = (Ok r, w')
    /\ payload_alert r = Some (PyDict [("body", PyStr "")])
    /\ payload_push_type r = Some (KwPushType BACKGROUND).
Proof.
  apply (absent_alert_payload demo_env demo_world "abc"
           None None [] None None None None None [] [] []);
    reflexivity.
Defined.

(** C3, refuted as stated: for the intent [{alert: "Hello", badge: 3}] the
    [aps] object also holds ["sound"] and ["thread-id"], both mapped to
    [None], so the message is not [{"aps": {"alert": "Hello", "badge": 3}}]. *)
Lemma unset_fields_are_emitted :
  exists r w',
    _create_notification_request_from_args demo_env "abc"
      (AlertVal (PyStr "Hello")) (Some 3) None [] None None None None None
      [] [] [] demo_world = (Ok r, w')
    /\ message r <> [("aps", PyDict [("alert", PyStr "Hello"); ("badge", PyInt 3)])]
    /\ exists d, payload_aps r = Some d
                 /\ dict_keys d = ["alert"; "badge"; "sound"; "thread-id"]
                 /\ dict_get "sound" d = Some PyNone
                 /\ dict_get "thread-id" d = Some PyNone.
Proof.
  do 2 eexists. split; [reflexivity|]. split; [discriminate|].
  eexists. repeat split.
Qed.

(** C3, amended: for a string alert and no localisation key, built
    without [notification_request_kwargs] and with no ["aps"] entry in
    [extra] or [message_kwargs], the [aps] object holds the keys [alert],
    [badge], [sound] and [thread-id], set or not, and beside them the keys
    of [aps_kwargs] and no others; each of the four is mapped to its
    field, to [None] when the field is not set, unless [aps_kwargs] has an
    entry for it, which wins.  With nothing in the three dictionaries the
    message is the [aps] object of these four keys alone.  The world is
    left as it was and the push type is alert. *)
Theorem aps_always_has_four_keys (env : Env) (w : World) (rid s : string)
    (badge : option Z) (snd : option string) (extra : dict pyval)
    (expiration : option Z) (thread_id lk : option string)
    (priority : option Z) (collapse_id : option string)
    (aps_kwargs message_kwargs : dict pyval) :
  truthy lk = false ->
  NoDup (dict_keys aps_kwargs) ->
  dict_has "aps" extra = false ->
  dict_has "aps" message_kwargs = false ->
  exists r d,
    _create_notification_request_from_args env rid (AlertVal (PyStr s))
      badge snd extra expiration thread_id lk priority collapse_id
      aps_kwargs message_kwargs [] w = (Ok r, w)
    /\ payload_push_type r = Some (KwPushType ALERT)
    /\ payload_aps r = Some d
    /\ (forall k,
          In k (dict_keys d) <->
          In k ["alert"; "badge"; "sound"; "thread-id"]
          \/ In k (dict_keys aps_kwargs))
    /\ (forall k,
          dict_get k d =
            overridden_by aps_kwargs k
              (dict_get k
                 [("alert", PyStr s); ("badge", opt_int badge);
                  ("sound", opt_str snd); ("thread-id", opt_str thread_id)]))
    /\ (aps_kwargs = [] -> extra = [] -> message_kwargs = [] ->
        message r =
          [("aps",
            PyDict [("alert", PyStr s); ("badge", opt_int badge);
                    ("sound", opt_str snd); ("thread-id", opt_str thread_id)])]).
Proof.
  intros Hk Hnd He Hm. rewrite build_str_plain by assumption.
  do 2 eexists. split; [reflexivity|]. split; [apply request_push_type|].
  split; [by apply request_aps|]. split; [|split].
  - intros k. by rewrite dict_keys_update.
  - intros k. by rewrite dict_get_update.
  - by intros -> -> ->.
Qed.

(** C3 amended, at the intent [{alert: "Hello", badge: 3}]. *)
Lemma aps_always_has_four_keys_witness :
  exists r,
    _create_notification_request_from_args demo_env "abc"
      (AlertVal (PyStr "Hello")) (Some 3) None [] None None None None None
      [] [] [] demo_world = (Ok r, demo_world)
    /\ message r =
         [("aps",
           PyDict [("alert", PyStr "Hello"); ("badge", PyInt 3);
                   ("sound", PyNone); ("thread-id", PyNone)])]
    /\ payload_push_type r = Some (KwPushType ALERT).
Proof.
  destruct (aps_always_has_four_keys demo_env demo_world "abc" "Hello"
              (Some 3) None [] None None None None None [] [])
    as (r & d & Hrun & Hpush & _ & _ & _ & Hmsg);
    [reflexivity | apply NoDup_nil_2 | reflexivity | reflexivity |].
  exists r. split; [exact Hrun|]. split; [|exact Hpush].
  by apply Hmsg.
Defined.

(** The edge of C4: a localisation key that is the empty string fails the
    builder's test [if loc_key:] like no key at all; the alert stays the
    plain string. *)
Lemma empty_loc_key_is_ignored :
  exists r w',
    _create_notification_request_from_args demo_env "abc"
      (AlertVal (PyStr "Hello")) None None [] None None (Some "") None None
      [] [] [] demo_world = (Ok r, w')
    /\ payload_alert r = Some (PyStr "Hello")
    /\ payload_alert r <> Some (PyDict [("body", PyStr "Hello"); ("loc-key", PyStr "")]).
Proof.
  do 2 eexists. split; [reflexivity|]. split; [reflexivity|discriminate].
Qed.



(** C5, refuted as stated: an integer alert is neither absent, a string
    nor an [Alert]; the builder does not fail on it and sends it on. *)
Lemma integer_alert_is_accepted :
  exists r,
    _create_notification_request_from_args demo_env "abc"
      (AlertVal (PyInt 5)) None None [] None None None None None
      [] [] [] demo_world = (Ok r, demo_world)
    /\ payload_alert r = Some (PyInt 5).
Proof.
  eexists. split; reflexivity.
Qed.

(** C5, amended: the builder never checks the kind of the alert.  Called
    without [notification_request_kwargs], it returns a request when the
    alert is absent, a string or an [Alert] instance; and a value of
    another kind (an integer, a boolean, a list, a plain dict), given
    without a non-empty localisation key, is not refused either: it is
    sent on unchanged as the alert. *)
Theorem alert_kind_is_not_checked (env : Env) (w : World) (rid : string)
    (alert : alert_arg)
    (badge : option Z) (snd : option string) (extra : dict pyval)
    (expiration : option Z) (thread_id lk : option string)
    (priority : option Z) (collapse_id : option string)
    (aps_kwargs message_kwargs : dict pyval) :
  well_formed w alert ->
  let out :=
    _create_notification_request_from_args env rid alert badge snd extra
      expiration thread_id lk priority collapse_id aps_kwargs
      message_kwargs [] w in
  (other_kind alert = false -> exists r w', out = (Ok r, w'))
  /\ (forall v, alert = AlertVal v -> other_kind alert = true ->
      truthy lk = false ->
      out = (Ok (request_of env w rid v ALERT badge snd extra expiration
                   thread_id priority collapse_id aps_kwargs message_kwargs
                   []), w)).
Proof.
  intros Hwf out. subst out. split.
  - intros Hk. destruct alert as [v|l].
    + destruct v; try discriminate Hk; destruct (truthy lk) eqn:Ht.
      * rewrite build_none_loc by assumption. eauto.
      * rewrite build_none_plain by assumption. eauto.
      * rewrite build_str_loc by assumption. eauto.
      * rewrite build_str_plain by assumption. eauto.
    + destruct Hwf as [a Ha]. destruct (truthy lk) eqn:Ht.
      * rewrite build_ref_loc with (a := a) by assumption. eauto.
      * rewrite build_ref_plain with (a := a) by assumption. eauto.
  - intros v -> Hv Ht. by apply build_other_plain.
Qed.

(** C5 amended, at the alert [5]. *)
Lemma alert_kind_is_not_checked_witness :
  exists r,
    _create_notification_request_from_args demo_env "abc" (AlertVal (PyInt 5))
      None None [] None None None None None [] [] [] demo_world
    = (Ok r, demo_world)
    /\ payload_alert r = Some (PyInt 5).
Proof.
  destruct (alert_kind_is_not_checked demo_env demo_world "abc"
              (AlertVal (PyInt 5)) None None [] None None None None None
              [] [] I) as (_ & Hplain).
  eexists. split; [apply (Hplain (PyInt 5)); reflexivity | reflexivity].
Defined.

(** C9: given an [Alert] instance and a non-empty localisation key, the
    builder writes the key into the instance the caller holds: after the
    call the object at the caller's address has its [loc_key] set, so it is
    not the object the caller passed unless it already held that key.  No
    other object changes. *)
Theorem loc_key_is_written_into_callers_alert (env : Env) (w : World)
    (rid k : string) (l : loc) (a : Alert)
    (badge : option Z) (snd : option string) (extra : dict pyval)
    (expiration : option Z) (thread_id : option string)
    (priority : option Z) (collapse_id : option string)
    (aps_kwargs message_kwargs : dict pyval) (nrk : dict kwval) :
  heap w !! l = Some a ->
  k <> "" ->
  exists r w',
    _create_notification_request_from_args env rid (AlertRef l)
      badge snd extra expiration thread_id (Some k) priority collapse_id
      aps_kwargs message_kwargs nrk w = (Ok r, w')
    /\ heap w' !! l = Some (set_loc_key a (PyStr k))
    /\ (loc_key a <> Value (PyStr k) -> heap w' !! l <> heap w !! l)
    /\ (forall l', l' <> l -> heap w' !! l' = heap w !! l').
Proof.
  intros Hl Hk.
  assert (truthy (Some k) = true) as Ht.
  { simpl. destruct (String.eqb k "") eqn:E; [|reflexivity].
    apply String.eqb_eq in E. contradiction. }
  rewrite build_ref_loc with (a := a) by assumption.
  do 2 eexists. split; [reflexivity|]. simpl. repeat split.
  - apply lookup_insert_eq.
  - intros Hne. rewrite lookup_insert_eq, Hl. intros [= E].
    apply Hne. rewrite <- E at 1. reflexivity.
  - intros l' Hl'. by apply lookup_insert_ne.
Qed.

(** C9 for a caller holding [Alert(title="Hi")] at address 7. *)
Lemma loc_key_is_written_into_callers_alert_witness :
  exists r w',
    _create_notification_request_from_args demo_env "abc" (AlertRef 7%nat)
      None None [] None None (Some "GREETING") None None [] [] []
      (mkWorld {[ 7%nat :=
                  mkAlert (Value (PyStr "Hi")) NotSet NotSet NotSet NotSet
                    NotSet NotSet NotSet NotSet NotSet NotSet ]} [] [])
    = (Ok r, w')
    /\ heap w' !! 7%nat
       = Some (mkAlert (Value (PyStr "Hi")) NotSet NotSet NotSet NotSet
                 NotSet NotSet NotSet (Value (PyStr "GREETING")) NotSet NotSet)
    /\ heap w' !! 7%nat
       <> Some (mkAlert (Value (PyStr "Hi")) NotSet NotSet NotSet NotSet
                  NotSet NotSet NotSet NotSet NotSet NotSet).
Proof.
  destruct (loc_key_is_written_into_callers_alert demo_env
              (mkWorld {[ 7%nat :=
                          mkAlert (Value (PyStr "Hi")) NotSet NotSet NotSet
                            NotSet NotSet NotSet NotSet NotSet NotSet NotSet ]}
                 [] [])
              "abc" "GREETING" 7%nat
              (mkAlert (Value (PyStr "Hi")) NotSet NotSet NotSet NotSet
                 NotSet NotSet NotSet NotSet NotSet NotSet)
              None None [] None None None None [] [] [])
    as (r & w' & Hrun & Hnew & Hdiff & _).
  - reflexivity.
  - discriminate.
  - exists r, w'. split; [exact Hrun|]. split; [exact Hnew|].
    apply Hdiff. discriminate.
Defined.

(** ** The sends *)

Lemma pure_ret {A} (a : A) : pure (ret a).
Proof. by intros w. Qed.

Lemma pure_raise {A} (e : exn) : pure (@raise A e).
Proof. by intros w. Qed.

Lemma pure_lift {A} (r : result A) : pure (lift r).
Proof. by intros w. Qed.

Lemma pure_bind {A B} (m : M A) (k : A -> M B) :
  pure m -> (forall a, pure (k a)) -> pure (bind m k).
Proof.
  intros Hm Hk w. unfold bind. specialize (Hm w).
  destruct (m w) as [[a|e] w1]; simpl in *; subst; auto. apply Hk.
Qed.

Ltac solve_pure :=
  repeat first
    [ apply pure_ret | apply pure_raise | apply pure_lift
    | apply pure_bind; [|intros ?]
    | match goal with
      | |- pure (match ?x with _ => _ end) => destruct x
      | |- pure (if ?x then _ else _) => destruct x
      end ].

Section Sends.

Variable env : Env.

(** Looking the settings up changes nothing. *)
Lemma get_credentials_pure application_id :
  pure (_get_credentials env application_id).
Proof. unfold _get_credentials. solve_pure. Qed.

Lemma create_client_pure creds application_id topic err_func :
  pure (_create_client env creds application_id topic err_func).
Proof.
  unfold _create_client. solve_pure; try apply get_credentials_pure.
Qed.

Lemma init_pure application_id creds topic err_func :
  pure (APNsService_init env application_id creds topic err_func).
Proof.
  unfold APNsService_init. solve_pure; try apply create_client_pure.
Qed.

End Sends.

Section Topic.

Variable env : Env.

(** The client keeps a topic the caller gave. *)
Lemma init_topic_given application_id creds t err_func w svc w' :
  APNsService_init env application_id creds (Some t) err_func w = (Ok svc, w') ->
  apns_topic (client svc) = Some t.
Proof.
  unfold APNsService_init, _create_client. unfold_monad. intros H.
  destruct (get_apns_use_sandbox env application_id); [|discriminate].
  destruct creds as [c|].
  - by inversion H.
  - destruct (_get_credentials env application_id w) as [[c|e] w1];
      by inversion H.
Qed.

(** Without one it takes the configured topic. *)
Lemma init_topic_configured application_id creds err_func w svc w' :
  APNsService_init env application_id creds None err_func w = (Ok svc, w') ->
  get_apns_topic env application_id = Ok (apns_topic (client svc)).
Proof.
  unfold APNsService_init, _create_client. unfold_monad. intros H.
  destruct (get_apns_use_sandbox env application_id); [|discriminate].
  destruct (get_apns_topic env application_id) as [t|]; [|discriminate].
  destruct creds as [c|].
  - by inversion H.
  - destruct (_get_credentials env application_id w) as [[c|e] w1];
      by inversion H.
Qed.

End Topic.

Section Loop.

Variable env : Env.

Variables (apns_service : APNsService) (alert : alert_arg)
  (content_available : Z) (badge : option Z) (snd : option string)
  (extra : dict pyval) (expiration : option Z) (thread_id lk : option string)
  (priority : option Z) (collapse_id : option string).

Let loop ids results inactive : M (dict (option string) * list string) :=
  bulk_loop env apns_service ids alert content_available badge snd extra
    expiration thread_id lk priority collapse_id results inactive.

(** One send: the event is recorded, the answer is the provider's for what
    was done before, and nothing else changes. *)
Lemma send_message_run (request : NotificationRequest) w :
  send_message env apns_service request w =
    (send_notification env (trace w) (client apns_service) request,
     mkWorld (heap w) (devices w)
       (trace w ++ [EvSend (client apns_service) request])).
Proof.
  unfold send_message. unfold_monad. simpl.
  by destruct (send_notification env (trace w) (client apns_service) request).
Qed.

(** The loop, however it ends: it only sends, through the service's
    client, and updates no device.  When it runs to its end there is one
    send per token, in order, and the two accumulators hold what the
    replay of these sends computes. *)
Lemma loop_spec ids : forall results inactive w out w',
  loop ids results inactive w = (out, w') ->
  exists sends,
    trace w' = (trace w ++ sends)%list
    /\ devices w' = devices w
    /\ sends_through (client apns_service) sends
    /\ match out with
       | Ok (results', inactive') =>
           sent_tokens sends = ids
           /\ inactive' = (inactive ++ unregistered_tokens env (trace w) sends)%list
           /\ results' = recorded_outcomes env (trace w) sends results
       | Raise _ =>
           exists done, sent_tokens sends = done /\ done `prefix_of` ids
       end.
Proof.
  induction ids as [|rid rest IH]; intros results inactive w out w' H.
  - inversion H; subst. exists []. rewrite !app_nil_r.
    repeat split; auto. constructor.
  - unfold loop in H. cbn [bulk_loop] in H. unfold bind at 1 in H.
    destruct (_create_notification_request_from_args env rid alert badge snd
                extra expiration thread_id lk priority collapse_id
                [("content-available", PyInt content_available)] [] [] w)
      as [[request|e] w1] eqn:Hb.
    + pose proof (build_frame _ _ _ _ _ _ _ _ _ _ _ _ _ _ _ _ _ Hb) as [Ht Hd].
      pose proof (build_token _ _ _ _ _ _ _ _ _ _ _ _ _ _ _ _ _ Hb) as Htok.
      unfold bind at 1 in H. rewrite send_message_run in H.
      destruct (send_notification env (trace w1) (client apns_service) request)
        as [res|e] eqn:Hs.
      * apply IH in H. destruct H as (sends & Htr & Hdev & Hthr & Hout).
        simpl in Htr, Hdev.
        exists (EvSend (client apns_service) request :: sends).
        rewrite Htr, Ht, <- app_assoc. split; [reflexivity|].
        split; [congruence|]. split; [constructor; eauto|].
        destruct out as [[results' inactive']|e].
        -- destruct Hout as (Hsent & Hin & Hres). simpl in Hin, Hres.
           rewrite Ht in Hin, Hres. repeat split.
           ++ simpl. by rewrite Htok, Hsent.
           ++ simpl. rewrite <- Ht, Hs, Ht. simpl. rewrite Htok.
              rewrite Hin.
              destruct (negb (is_successful res)
                        && opt_str_eqb (description res) "Unregistered");
                by rewrite <- ?app_assoc.
           ++ simpl. rewrite <- Ht, Hs, Ht. unfold outcome_description.
              by rewrite Htok.
        -- destruct Hout as (done & Hsent & Hpre).
           exists (rid :: done). split.
           ++ simpl. by rewrite Htok, Hsent.
           ++ by apply prefix_cons.
      * inversion H; subst. simpl.
        exists [EvSend (client apns_service) request].
        rewrite Ht. repeat split; auto.
        -- constructor; eauto.
        -- exists [device_token request]. split; [reflexivity|].
           apply prefix_cons, prefix_nil.
    + inversion H; subst.
      pose proof (build_frame _ _ _ _ _ _ _ _ _ _ _ _ _ _ _ _ _ Hb) as [Ht Hd].
      exists []. rewrite app_nil_r. repeat split; auto.
      * constructor.
      * exists []. split; [reflexivity|]. apply prefix_nil.
Qed.

End Loop.

(** ** The device table and the replay *)

Lemma str_in_In (s : string) (l : list string) : str_in s l = true <-> In s l.
Proof.
  unfold str_in. rewrite existsb_exists. split.
  - intros (x & Hx & E). apply String.eqb_eq in E. by subst.
  - intros H. exists s. split; [done|]. apply String.eqb_refl.
Qed.

(** An update over no token changes no row. *)
Lemma filter_in_update_nil (ds : list APNSDevice) : filter_in_update [] ds = ds.
Proof. unfold filter_in_update. simpl. induction ds; simpl; congruence. Qed.

(** The update looks at which tokens are listed, not at how often. *)
Lemma filter_in_update_ext (l1 l2 : list string) (ds : list APNSDevice) :
  (forall t, In t l1 <-> In t l2) ->
  filter_in_update l1 ds = filter_in_update l2 ds.
Proof.
  intros H. unfold filter_in_update. apply map_ext. intros d.
  destruct (str_in (registration_id d) l1) eqn:E1,
           (str_in (registration_id d) l2) eqn:E2; auto.
  - apply str_in_In, H, str_in_In in E1. congruence.
  - apply str_in_In, H, str_in_In in E2. congruence.
Qed.

(** Marking inactive twice is marking inactive once. *)
Lemma filter_in_update_idem (l : list string) (ds : list APNSDevice) :
  filter_in_update l (filter_in_update l ds) = filter_in_update l ds.
Proof.
  unfold filter_in_update. rewrite map_map. apply map_ext. intros d.
  destruct (str_in (registration_id d) l) eqn:E; simpl; by rewrite E.
Qed.

(** A token is in the replay's list exactly when one of the sends for it
    was answered "Unregistered". *)
Lemma unregistered_tokens_In (env : Env) (t : string) (evs : list event) :
  forall before,
    In t (unregistered_tokens env before evs) <->
    exists pre c r post,
      evs = (pre ++ EvSend c r :: post)%list
      /\ device_token r = t
      /\ unregistered (send_notification env (before ++ pre) c r) = true.
Proof.
  induction evs as [|e evs IH]; intros before; simpl.
  - split; [tauto|]. intros (pre & c & r & post & E & _).
    by destruct pre.
  - split.
    + intros H.
      assert (In t (unregistered_tokens env (before ++ [e]) evs) ->
              exists pre c r post,
                e :: evs = (pre ++ EvSend c r :: post)%list
                /\ device_token r = t
                /\ unregistered (send_notification env (before ++ pre) c r) = true)
        as Hrest.
      { intros Hin. apply IH in Hin.
        destruct Hin as (pre & c & r & post & -> & Ht & Hu).
        exists (e :: pre), c, r, post. repeat split; auto.
        by rewrite <- app_assoc in Hu. }
      destruct e as [c r| |]; auto.
      apply in_app_or in H. destruct H as [H|H]; auto.
      destruct (unregistered (send_notification env before c r)) eqn:Hu;
        [|contradiction].
      destruct H as [<-|[]].
      exists [], c, r, evs. rewrite app_nil_r. auto.
    + intros (pre & c & r & post & E & Ht & Hu).
      destruct pre as [|e' pre]; simpl in E; inversion E; subst.
      * rewrite app_nil_r in Hu. rewrite Hu. simpl. auto.
      * assert (In (device_token r)
                  (unregistered_tokens env (before ++ [e'])
                     (pre ++ EvSend c r :: post))) as Hin.
        { apply IH. exists pre, c, r, post. repeat split; auto.
          by rewrite <- app_assoc. }
        destruct e'; auto. apply in_or_app. auto.
Qed.

(** ** The bulk call *)

Section Bulk.

Variable env : Env.

Variables (registration_ids : list string) (alert : alert_arg)
  (content_available : Z) (application_id : option string)
  (creds : option Credentials) (topic : option string)
  (badge : option Z) (snd : option string) (extra : dict pyval)
  (expiration : option Z) (thread_id lk : option string)
  (priority : option Z) (collapse_id : option string)
  (err_func : option ErrFunc).

Let bulk : M (dict (option string)) :=
  apns_send_bulk_message env registration_ids alert content_available
    application_id creds topic badge snd extra expiration thread_id lk
    priority collapse_id err_func.

(** The bulk call, however it ends.  Either the setup fails and nothing
    was done, or a service exists whose client carries the configured
    topic and every send went through it; a call that returns has sent to
    every token and then updated the devices at most once, and a call
    that raises after the setup has updated no device. *)
Lemma bulk_run w out w' :
  bulk w = (out, w') ->
  (w' = w /\ exists e, out = Raise e)
  \/ exists svc sends,
       get_apns_topic env application_id = Ok (apns_topic (client svc))
       /\ sends_through (client svc) sends
       /\ match out with
          | Ok results =>
              sent_tokens sends = registration_ids
              /\ results = recorded_outcomes env (trace w) sends []
              /\ trace w' =
                   (trace w ++ sends ++
                      match unregistered_tokens env (trace w) sends with
                      | [] => []
                      | inactive => [EvUpdateIn inactive]
                      end)%list
              /\ devices w' =
                   filter_in_update (unregistered_tokens env (trace w) sends)
                     (devices w)
          | Raise _ =>
              trace w' = (trace w ++ sends)%list
              /\ devices w' = devices w
              /\ sent_tokens sends `prefix_of` registration_ids
          end.
Proof.
  unfold bulk, apns_send_bulk_message. intros H.
  unfold bind at 1 in H. unfold lift at 1 in H.
  destruct (get_apns_topic env application_id) as [t0|e0] eqn:Htopic;
    [|inversion H; eauto].
  unfold bind at 1 in H.
  pose proof (init_pure env application_id creds t0 err_func w) as Hpure.
  destruct (APNsService_init env application_id creds t0 err_func w)
    as [[svc|e] w1] eqn:Hinit; simpl in Hpure; subst w1;
    [|inversion H; eauto].
  right. exists svc.
  assert (Ok t0 = Ok (apns_topic (client svc))) as Hcfg.
  { destruct t0 as [t|].
    - by rewrite (init_topic_given _ _ _ _ _ _ _ _ Hinit).
    - rewrite <- Htopic. by apply (init_topic_configured _ _ _ _ _ _ _ Hinit). }
  unfold bind at 1 in H.
  destruct (bulk_loop env svc registration_ids alert content_available badge
              snd extra expiration thread_id lk priority collapse_id [] [] w)
    as [[[results inactive]|e] w2] eqn:Hloop;
    apply loop_spec in Hloop;
    destruct Hloop as (sends & Htr & Hdev & Hthr & Hout); exists sends;
    (split; [exact Hcfg|]); (split; [exact Hthr|]).
  - destruct Hout as (Hsent & Hin & Hres). simpl in Hin, H.
    rewrite <- Hin.
    destruct inactive as [|t inactive]; simpl in H; inversion H; subst out w'.
    + simpl. rewrite app_nil_r, filter_in_update_nil. auto.
    + simpl. rewrite Htr, Hdev, <- app_assoc. auto.
  - inversion H; subst out w'.
    destruct Hout as (done & <- & Hpre). auto.
Qed.

End Bulk.

(** ** The single call *)

Section Single.

Variable env : Env.

Variables (rid : string) (alert : alert_arg)
  (application_id : option string) (creds : option Credentials)
  (topic : option string) (badge : option Z) (snd : option string)
  (extra : dict pyval) (expiration : option Z) (thread_id lk : option string)
  (priority : option Z) (collapse_id : option string)
  (err_func : option ErrFunc).

Let single : M unit :=
  apns_send_message env rid alert application_id creds topic badge snd extra
    expiration thread_id lk priority collapse_id err_func.

Let build : M NotificationRequest :=
  _create_notification_request_from_args env rid alert badge snd extra
    expiration thread_id lk priority collapse_id [] [] [].

(** With a service and a request, the call is one send and what follows
    from its answer. *)
Lemma single_after_setup w svc request w1 :
  APNsService_init env application_id creds topic err_func w = (Ok svc, w) ->
  build w = (Ok request, w1) ->
  single w =
    single_outcome w1 (client svc) request rid
      (send_notification env (trace w1) (client svc) request).
Proof.
  intros Hinit Hbuild.
  unfold single, apns_send_message, except_ConnectionError.
  unfold bind at 1. rewrite Hinit.
  unfold bind at 1. fold build. rewrite Hbuild.
  unfold bind at 1. rewrite send_message_run.
  unfold single_outcome, sent, sent_and_deactivated.
  destruct (send_notification env (trace w1) (client svc) request)
    as [res|e]; [|by destruct e].
  destruct (is_successful res); simpl; [reflexivity|].
  unfold_monad. simpl.
  destruct (opt_str_eqb (description res) "Unregistered"); simpl;
    [|reflexivity].
  by rewrite <- app_assoc.
Qed.

(** The single call, however it ends: nothing is sent when the setup or
    the builder fails; otherwise there is one send, through the service's
    client. *)
Lemma single_run w out w' :
  single w = (out, w') ->
  (trace w' = trace w /\ devices w' = devices w /\ exists e, out = Raise e)
  \/ exists svc request w1,
       APNsService_init env application_id creds topic err_func w = (Ok svc, w)
       /\ build w = (Ok request, w1)
       /\ (out, w') =
            single_outcome w1 (client svc) request rid
              (send_notification env (trace w1) (client svc) request).
Proof.
  intros H.
  pose proof (init_pure env application_id creds topic err_func w) as Hpure.
  destruct (APNsService_init env application_id creds topic err_func w)
    as [[svc|e] w0] eqn:Hinit; simpl in Hpure; subst w0.
  - destruct (build w) as [[request|e] w1] eqn:Hbuild.
    + right. exists svc, request, w1. repeat split; auto.
      rewrite <- H. by apply single_after_setup.
    + left.
      pose proof (build_frame _ _ _ _ _ _ _ _ _ _ _ _ _ _ _ _ _ Hbuild)
        as [Ht Hd].
      unfold single, apns_send_message, except_ConnectionError in H.
      unfold bind at 1 in H. rewrite Hinit in H.
      unfold bind at 1 in H. fold build in H. rewrite Hbuild in H.
      destruct e; inversion H; subst; eauto.
  - left.
    unfold single, apns_send_message, except_ConnectionError in H.
    unfold bind at 1 in H. rewrite Hinit in H.
    destruct e; inversion H; subst; eauto.
Qed.

End Single.

(** ** The public calls: what the claims say *)

(** C6: a bulk call that returns has sent to every token of the batch, in
    order, and only then, if any send was answered "Unregistered", run one
    update over the tokens so answered; no update happens between sends.
    The rows of those tokens, and no others, are marked inactive, however
    many sends were answered so for one token. *)
Theorem bulk_deactivates_once_at_the_end (env : Env)
    (registration_ids : list string) (alert : alert_arg)
    (content_available : Z) (application_id : option string)
    (creds : option Credentials) (topic : option string)
    (badge : option Z) (snd : option string) (extra : dict pyval)
    (expiration : option Z) (thread_id lk : option string)
    (priority : option Z) (collapse_id : option string)
    (err_func : option ErrFunc) (w : World)
    (results : dict (option string)) (w' : World) :
  apns_send_bulk_message env registration_ids alert content_available
    application_id creds topic badge snd extra expiration thread_id lk
    priority collapse_id err_func w = (Ok results, w') ->
  exists sends inactive,
    sent_tokens sends = registration_ids
    /\ List.filter is_update sends = []
    /\ trace w' =
         (trace w ++ sends ++
            match inactive with [] => [] | _ => [EvUpdateIn inactive] end)%list
    /\ devices w' =
         map (fun d => if str_in (registration_id d) inactive
                       then deactivate d else d) (devices w)
    /\ forall t,
         In t inactive <->
         exists pre c r post,
           sends = (pre ++ EvSend c r :: post)%list
           /\ device_token r = t
           /\ unregistered (send_notification env (trace w ++ pre) c r) = true.
Proof.
  intros H. apply bulk_run in H.
  destruct H as [(_ & e & He)|(svc & sends & _ & Hthr & H)]; [discriminate|].
  destruct H as (Hsent & _ & Htr & Hdev).
  exists sends, (unregistered_tokens env (trace w) sends).
  split; [exact Hsent|]. split.
  { clear -Hthr. induction Hthr as [|e evs [r ->] _ IH]; simpl; auto. }
  split; [rewrite Htr; by destruct (unregistered_tokens env (trace w) sends)|].
  split; [exact Hdev|].
  intros t. apply unregistered_tokens_In.
Qed.

(** C6 on the batch ["abc"; "xyz"; "xyz"], where ["xyz"] is unregistered. *)
Lemma bulk_deactivates_once_at_the_end_witness :
  exists sends inactive,
    sent_tokens sends = ["abc"; "xyz"; "xyz"]
    /\ List.filter is_update sends = []
    /\ trace (snd (apns_send_bulk_message demo_env ["abc"; "xyz"; "xyz"]
                    (AlertVal (PyStr "Hello")) 0 None None None None None []
                    None None None None None None demo_world)) =
         (trace demo_world ++ sends ++
            match inactive with [] => [] | _ => [EvUpdateIn inactive] end)%list
    /\ [mkAPNSDevice "xyz" false; mkAPNSDevice "abc" true] =
         map (fun d => if str_in (registration_id d) inactive
                       then deactivate d else d) (devices demo_world)
    /\ forall t,
         In t inactive <->
         exists pre c r post,
           sends = (pre ++ EvSend c r :: post)%list
           /\ device_token r = t
           /\ unregistered
                (send_notification demo_env (trace demo_world ++ pre) c r) = true.
Proof.
  apply (bulk_deactivates_once_at_the_end demo_env ["abc"; "xyz"; "xyz"]
           (AlertVal (PyStr "Hello")) 0 None None None None None []
           None None None None None None demo_world
           [("abc", Some "Success"); ("xyz", Some "Unregistered")]
           (mkWorld (heap demo_world)
              [mkAPNSDevice "xyz" false; mkAPNSDevice "abc" true]
              (trace (snd (apns_send_bulk_message demo_env ["abc"; "xyz"; "xyz"]
                             (AlertVal (PyStr "Hello")) 0 None None None None
                             None [] None None None None None None
                             demo_world))))).
  reflexivity.
Defined.

(** C7 (the code at an input that breaks it): the provider cannot be
    reached for the second token of the batch; the bulk call raises that
    connection error instead of returning a mapping, after the send to the
    first token, and the first token, answered "Unregistered", stays
    active. *)
Theorem bulk_raises_on_connection_error :
  exists w',
    apns_send_bulk_message demo_env ["xyz"; "boom"; "abc"]
      (AlertVal (PyStr "Hello")) 0 None None None None None []
      None None None None None None demo_world
    = (Raise (ConnectionError "MaxAttemptsExceeded"), w')
    /\ sent_tokens (trace w') = ["xyz"; "boom"]
    /\ devices w' = devices demo_world.
Proof.
  exists (snd (apns_send_bulk_message demo_env ["xyz"; "boom"; "abc"]
                 (AlertVal (PyStr "Hello")) 0 None None None None None []
                 None None None None None None demo_world)).
  repeat split; vm_compute; reflexivity.
Qed.

(** C8, refuted as stated: the send raises an exception that is no
    [aioapns.ConnectionError] (here a timeout); the single call lets it
    out as it is, not as an [APNSServerError]. *)
Lemma single_lets_other_errors_out :
  fst (apns_send_message timeout_env "abc" (AlertVal (PyStr "Hello"))
         None None None None None [] None None None None None None demo_world)
  = Raise (OtherError "TimeoutError")
  /\ forall status,
       fst (apns_send_message timeout_env "abc" (AlertVal (PyStr "Hello"))
              None None None None None [] None None None None None None
              demo_world)
       <> Raise (APNSServerError status).
Proof.
  split; [reflexivity|]. intros status. discriminate.
Qed.

(** C8, amended: once the setup and the builder have succeeded, the
    single call makes one send and ends by the answer: it returns nothing
    on success; it raises [APNSServerError] with the provider's reason on
    an unsuccessful result, after marking the token's rows inactive when
    the reason is "Unregistered"; it raises [APNSServerError] with the
    error's class name when the send raises an [aioapns.ConnectionError];
    and any other exception of the send leaves the call unchanged. *)
Theorem single_send_ends_by_the_answer (env : Env)
    (rid : string) (alert : alert_arg)
    (application_id : option string) (creds : option Credentials)
    (topic : option string) (badge : option Z) (snd : option string)
    (extra : dict pyval) (expiration : option Z) (thread_id lk : option string)
    (priority : option Z) (collapse_id : option string)
    (err_func : option ErrFunc) (w w1 : World) (svc : APNsService)
    (request : NotificationRequest) :
  APNsService_init env application_id creds topic err_func w = (Ok svc, w) ->
  _create_notification_request_from_args env rid alert badge snd extra
    expiration thread_id lk priority collapse_id [] [] [] w = (Ok request, w1) ->
  let answer := send_notification env (trace w1) (client svc) request in
  let run :=
    apns_send_message env rid alert application_id creds topic badge snd
      extra expiration thread_id lk priority collapse_id err_func w in
  (forall res, answer = Ok res -> is_successful res = true ->
     run = (Ok tt, sent w1 (client svc) request))
  /\ (forall res, answer = Ok res -> is_successful res = false ->
      description res = Some "Unregistered" ->
      run = (Raise (APNSServerError (Some "Unregistered")),
             sent_and_deactivated w1 (client svc) request rid))
  /\ (forall res, answer = Ok res -> is_successful res = false ->
      description res <> Some "Unregistered" ->
      run = (Raise (APNSServerError (description res)),
             sent w1 (client svc) request))
  /\ (forall cls, answer = Raise (ConnectionError cls) ->
      run = (Raise (APNSServerError (Some cls)),
             sent w1 (client svc) request))
  /\ (forall e, answer = Raise e ->
      (forall cls, e <> ConnectionError cls) ->
      run = (Raise e, sent w1 (client svc) request)).
Proof.
  intros Hinit Hbuild answer run. subst answer run.
  rewrite (single_after_setup env _ _ _ _ _ _ _ _ _ _ _ _ _ _ _ _ _ _
             Hinit Hbuild).
  unfold single_outcome. repeat split.
  - intros res -> Hs. by rewrite Hs.
  - intros res -> Hs Hd. by rewrite Hs, Hd.
  - intros res -> Hs Hd. rewrite Hs.
    destruct (opt_str_eqb (description res) "Unregistered") eqn:E; auto.
    destruct (description res) as [s|]; [|discriminate].
    apply String.eqb_eq in E. congruence.
  - by intros cls ->.
  - intros e -> Hne. destruct e; try reflexivity.
    by destruct (Hne cls).
Qed.

(** C8 amended, for the unregistered token ["xyz"]: its row is inactive
    when the error is raised. *)
Lemma single_send_ends_by_the_answer_witness :
  apns_send_message demo_env "xyz" (AlertVal (PyStr "Hello"))
    None None None None None [] None None None None None None demo_world
  = (Raise (APNSServerError (Some "Unregistered")),
     mkWorld ∅
       [mkAPNSDevice "xyz" false; mkAPNSDevice "abc" true]
       [EvSend demo_client (demo_request "xyz"); EvUpdateEq "xyz"]).
Proof.
  destruct (single_send_ends_by_the_answer demo_env "xyz"
              (AlertVal (PyStr "Hello")) None None None None None []
              None None None None None None demo_world demo_world
              (mkAPNsService demo_client) (demo_request "xyz")
              eq_refl eq_refl) as (_ & Hunregistered & _).
  apply (Hunregistered (mkNotificationResult false (Some "Unregistered")));
    reflexivity.
Defined.

(** C10: the bulk call does not look at its [topic] argument: two calls
    that differ in it only are the same computation, and every send one
    makes goes through a client whose topic is the configured one.  The
    single call keeps a topic it is given: its send goes through a client
    with that topic. *)
Theorem bulk_ignores_topic_single_keeps_it (env : Env)
    (registration_ids : list string) (alert : alert_arg)
    (content_available : Z) (application_id : option string)
    (creds : option Credentials)
    (badge : option Z) (snd : option string) (extra : dict pyval)
    (expiration : option Z) (thread_id lk : option string)
    (priority : option Z) (collapse_id : option string)
    (err_func : option ErrFunc) :
  (forall topic1 topic2,
     apns_send_bulk_message env registration_ids alert content_available
       application_id creds topic1 badge snd extra expiration thread_id lk
       priority collapse_id err_func
     = apns_send_bulk_message env registration_ids alert content_available
         application_id creds topic2 badge snd extra expiration thread_id lk
         priority collapse_id err_func)
  /\ (forall topic w out w' c r,
        apns_send_bulk_message env registration_ids alert content_available
          application_id creds topic badge snd extra expiration thread_id lk
          priority collapse_id err_func w = (out, w') ->
        In (EvSend c r) (trace w') ->
        In (EvSend c r) (trace w)
        \/ get_apns_topic env application_id = Ok (apns_topic c))
  /\ (forall rid t w out w' c r,
        apns_send_message env rid alert application_id creds (Some t) badge
          snd extra expiration thread_id lk priority collapse_id err_func w
        = (out, w') ->
        In (EvSend c r) (trace w') ->
        In (EvSend c r) (trace w) \/ apns_topic c = Some t).
Proof.
  split; [reflexivity|]. split.
  - intros topic w out w' c r H Hin. apply bulk_run in H.
    destruct H as [(-> & _)|(svc & sends & Hcfg & Hthr & H)]; [by left|].
    assert (In (EvSend c r) sends -> c = client svc) as Hc.
    { intros Hs. unfold sends_through in Hthr.
      rewrite Forall_forall in Hthr.
      apply list_elem_of_In, Hthr in Hs. destruct Hs as [r' E].
      by inversion E. }
    destruct out as [results|e].
    + destruct H as (_ & _ & Htr & _). rewrite Htr in Hin.
      apply in_app_or in Hin. destruct Hin as [Hin|Hin]; [by left|].
      apply in_app_or in Hin. destruct Hin as [Hin|Hin].
      * right. by rewrite (Hc Hin).
      * destruct (unregistered_tokens env (trace w) sends);
          [contradiction|].
        by destruct Hin as [?|[]].
    + destruct H as (Htr & _ & _). rewrite Htr in Hin.
      apply in_app_or in Hin. destruct Hin as [Hin|Hin]; [by left|].
      right. by rewrite (Hc Hin).
  - intros rid t w out w' c r H Hin. apply single_run in H.
    destruct H as [(Htr & _ & _)|(svc & request & w1 & Hinit & Hb & H)].
    { left. by rewrite <- Htr. }
    apply build_frame in Hb. destruct Hb as [Ht _].
    apply init_topic_given in Hinit.
    assert (In (EvSend c r) (trace w1 ++ [EvSend (client svc) request])
            -> In (EvSend c r) (trace w) \/ apns_topic c = Some t) as Hone.
    { intros Hs. apply in_app_or in Hs. destruct Hs as [Hs|[E|[]]].
      - left. by rewrite <- Ht.
      - right. by inversion E; subst. }
    unfold single_outcome, sent, sent_and_deactivated in H.
    destruct (send_notification env (trace w1) (client svc) request)
      as [res|e].
    + destruct (is_successful res); [inversion H; subst; auto|].
      destruct (opt_str_eqb (description res) "Unregistered");
        inversion H; subst; simpl in Hin; auto.
      apply Hone. apply in_app_or in Hin. apply in_or_app.
      destruct Hin as [Hin|[E|[E|[]]]]; simpl; auto. discriminate E.
    + destruct e; inversion H; subst; auto.
Qed.

(** C10 with the topic ["other.topic"] given to both calls: the bulk call
    sends under the configured topic, the single call under the given
    one. *)
Lemma bulk_ignores_topic_single_keeps_it_witness :
  (In (EvSend demo_client (demo_bulk_request "abc"))
      (trace (snd (apns_send_bulk_message demo_env ["abc"]
                     (AlertVal (PyStr "Hello")) 0 None None
                     (Some "other.topic") None None [] None None None None
                     None None demo_world)))
   /\ get_apns_topic demo_env None = Ok (apns_topic demo_client))
  /\ (In (EvSend (mkAPNs (CertificateCredentials "cert.pem")
                    (Some "other.topic") true None) (demo_request "abc"))
        (trace (snd (apns_send_message demo_env "abc"
                       (AlertVal (PyStr "Hello")) None None
                       (Some "other.topic") None None [] None None None None
                       None None demo_world)))
      /\ apns_topic (mkAPNs (CertificateCredentials "cert.pem")
                       (Some "other.topic") true None) = Some "other.topic").
Proof.
  destruct (bulk_ignores_topic_single_keeps_it demo_env ["abc"]
              (AlertVal (PyStr "Hello")) 0 None None None None [] None None
              None None None None) as (_ & Hbulk & Hsingle).
  split; (split; [simpl; auto|]).
  - destruct (Hbulk (Some "other.topic") demo_world _ _
                demo_client (demo_bulk_request "abc") eq_refl)
      as [[]|H]; [simpl; auto|exact H].
  - destruct (Hsingle "abc" "other.topic" demo_world _ _
                (mkAPNs (CertificateCredentials "cert.pem")
                   (Some "other.topic") true None)
                (demo_request "abc") eq_refl)
      as [[]|H]; [simpl; auto|exact H].
Defined.

(** ** Further properties of the builder *)

(** On a dictionary that does not hold the key, setting it appends it. *)
Lemma dict_set_fresh {V} (k : string) (v : V) (d : dict V) :
  k ∉ dict_keys d -> dict_set k v d = (d ++ [(k, v)])%list.
Proof.
  induction d as [|[k' v'] d IH]; simpl; intros Hk; [reflexivity|].
  apply not_elem_of_cons in Hk. destruct Hk as [Hne Hk].
  destruct (String.eqb k' k) eqn:E.
  - apply String.eqb_eq in E. congruence.
  - f_equal. by apply IH.
Qed.

Lemma asDict_items_set_fields (items : list (string * attr)) :
  forall acc,
    NoDup (dict_keys acc ++ map (fun kv => str_replace "_" "-" (fst kv)) items) ->
    asDict_items items acc = (acc ++ set_fields items)%list.
Proof.
  induction items as [|[key [|x]] items IH]; intros acc Hnd; simpl.
  - by rewrite app_nil_r.
  - apply IH. simpl in Hnd.
    apply NoDup_app in Hnd. destruct Hnd as (Hacc & Hdisj & Hrest).
    apply NoDup_cons in Hrest. destruct Hrest as [_ Hrest].
    apply NoDup_app. repeat split; auto.
    intros k Hk Hin. apply (Hdisj k Hk). by right.
  - simpl in Hnd.
    apply NoDup_app in Hnd. destruct Hnd as (Hacc & Hdisj & Hrest).
    apply NoDup_cons in Hrest. destruct Hrest as [Hnew Hrest].
    assert (str_replace "_" "-" key ∉ dict_keys acc) as Hfresh.
    { intros Hin. apply (Hdisj _ Hin). by left. }
    rewrite dict_set_fresh by exact Hfresh.
    rewrite IH; [by rewrite <- app_assoc|].
    unfold dict_keys in *. rewrite map_app. simpl.
    apply NoDup_app. repeat split; auto.
    + apply NoDup_app. repeat split; auto.
      * intros k Hk Hin. apply list_elem_of_singleton in Hin. by subst.
      * apply NoDup_singleton.
    + intros k Hk Hin. apply elem_of_app in Hk. destruct Hk as [Hk|Hk].
      * apply (Hdisj k Hk). by right.
      * apply list_elem_of_singleton in Hk. by subst.
Qed.

(** The names of the eleven fields, written with dashes, are distinct, so
    [Alert.asDict] is the list of the fields that are set. *)
Lemma asDict_as_set_fields (a : Alert) :
  asDict a = set_fields (asdict a).
Proof.
  unfold asDict. rewrite asDict_items_set_fields; [reflexivity|].
  simpl. apply NoDup_ListNoDup.
  repeat (constructor; [simpl; intros H; repeat destruct H as [H|H];
                        discriminate H || exact H|]).
  constructor.
Qed.

(** X3: [Alert.asDict] holds exactly the fields that are set, in the order
    title, subtitle, body, launch-image, title-loc-key, title-loc-args,
    subtitle-loc-key, subtitle-loc-args, loc-key, loc-args, sound: each
    under its name written with dashes; a field still at [NotSet] has no
    key. *)
Theorem asDict_holds_the_set_fields (a : Alert) :
  asDict a =
    fields_that_are_set
      [ ("title", title a);
        ("subtitle", subtitle a);
        ("body", body a);
        ("launch-image", launch_image a);
        ("title-loc-key", title_loc_key a);
        ("title-loc-args", title_loc_args a);
        ("subtitle-loc-key", subtitle_loc_key a);
        ("subtitle-loc-args", subtitle_loc_args a);
        ("loc-key", loc_key a);
        ("loc-args", loc_args a);
        ("sound", sound a) ].
Proof.
  rewrite asDict_as_set_fields. destruct a. reflexivity.
Qed.

(** For [Alert(title="Hi", loc_key="GREETING")]. *)
Example asDict_demo :
  asDict (mkAlert (Value (PyStr "Hi")) NotSet NotSet NotSet NotSet NotSet
            NotSet NotSet (Value (PyStr "GREETING")) NotSet NotSet)
  = [("title", PyStr "Hi"); ("loc-key", PyStr "GREETING")].
Proof. reflexivity. Qed.

(** The keyword dictionary holds the time to live that was computed. *)
Lemma request_time_to_live (env : Env) (w : World) (rid : string) (v : pyval)
    (p : PushType) (badge : option Z) (snd : option string)
    (extra : dict pyval) (e : Z) (thread_id : option string)
    (priority : option Z) (collapse_id : option string)
    (aps_kwargs message_kwargs : dict pyval) (nrk : dict kwval) :
  dict_get "time_to_live"
    (request_kwargs
       (request_of env w rid v p badge snd extra (Some e) thread_id priority
          collapse_id aps_kwargs message_kwargs nrk))
  = Some (KwVal (PyInt (e - time_time env (trace w)))).
Proof.
  unfold request_of; simpl.
  destruct collapse_id, priority;
    repeat (rewrite dict_get_set_ne by discriminate);
    apply dict_get_set_eq.
Qed.

(** X4: the push type is decided by the alert alone: background when it is
    absent, alert otherwise, whatever the other fields are (the bulk
    call's [content_available] among them). *)
Theorem push_type_follows_the_alert (env : Env) (w : World) (rid : string)
    (alert : alert_arg)
    (badge : option Z) (snd : option string) (extra : dict pyval)
    (expiration : option Z) (thread_id lk : option string)
    (priority : option Z) (collapse_id : option string)
    (aps_kwargs message_kwargs : dict pyval) (nrk : dict kwval) :
  well_formed w alert ->
  other_kind alert && truthy lk = false ->
  exists r w',
    _create_notification_request_from_args env rid alert badge snd extra
      expiration thread_id lk priority collapse_id aps_kwargs
      message_kwargs nrk w = (Ok r, w')
    /\ payload_push_type r = Some (KwPushType (push_type_for alert)).
Proof.
  intros Hwf Hok.
  destruct (build_returns env rid badge snd extra expiration thread_id lk
              priority collapse_id aps_kwargs message_kwargs nrk alert w
              Hwf Hok) as (r & w' & Hrun).
  exists r, w'. split; [exact Hrun|].
  destruct (build_request _ _ _ _ _ _ _ _ _ _ _ _ _ _ _ _ _ Hrun) as [v ->].
  apply request_push_type.
Qed.

(** X4 in the bulk call's way: a request for a plain alert is an alert
    push even with [content-available] set to 1. *)
Lemma push_type_follows_the_alert_witness :
  exists r w',
    _create_notification_request_from_args demo_env "abc"
      (AlertVal (PyStr "Hello")) None None [] None None None None None
      [("content-available", PyInt 1)] [] [] demo_world = (Ok r, w')
    /\ payload_push_type r = Some (KwPushType ALERT).
Proof.
  apply (push_type_follows_the_alert demo_env demo_world "abc"
           (AlertVal (PyStr "Hello")) None None [] None None None None None
           [("content-available", PyInt 1)] [] []);
    [exact I | reflexivity].
Defined.

(** X5: the time to live is the expiration less the clock's reading when
    the request is built; it is not clamped, so a deadline that has passed
    gives a negative one. *)
Theorem time_to_live_is_expiration_less_now (env : Env) (w : World)
    (rid : string) (alert : alert_arg)
    (badge : option Z) (snd : option string) (extra : dict pyval)
    (e : Z) (thread_id lk : option string)
    (priority : option Z) (collapse_id : option string)
    (aps_kwargs message_kwargs : dict pyval) (nrk : dict kwval) :
  well_formed w alert ->
  other_kind alert && truthy lk = false ->
  exists r w',
    _create_notification_request_from_args env rid alert badge snd extra
      (Some e) thread_id lk priority collapse_id aps_kwargs
      message_kwargs nrk w = (Ok r, w')
    /\ dict_get "time_to_live" (request_kwargs r)
       = Some (KwVal (PyInt (e - time_time env (trace w)))).
Proof.
  intros Hwf Hok.
  destruct (build_returns env rid badge snd extra (Some e) thread_id lk
              priority collapse_id aps_kwargs message_kwargs nrk alert w
              Hwf Hok) as (r & w' & Hrun).
  exists r, w'. split; [exact Hrun|].
  destruct (build_request _ _ _ _ _ _ _ _ _ _ _ _ _ _ _ _ _ Hrun) as [v ->].
  apply request_time_to_live.
Qed.

(** X5: a deadline of 400 read at time 1000 gives a time to live of -600. *)
Lemma time_to_live_is_expiration_less_now_witness :
  exists r w',
    _create_notification_request_from_args demo_env "abc"
      (AlertVal (PyStr "Hello")) None None [] (Some 400) None None None None
      [] [] [] demo_world = (Ok r, w')
    /\ dict_get "time_to_live" (request_kwargs r) = Some (KwVal (PyInt (-600))).
Proof.
  apply (time_to_live_is_expiration_less_now demo_env demo_world "abc"
           (AlertVal (PyStr "Hello")) None None [] 400 None None None None
           [] [] []);
    [exact I | reflexivity].
Defined.

(** ** Further properties of the bulk call *)

(** X2: a bulk call that raises has updated no device, whatever the
    provider answered before. *)
Theorem bulk_that_raises_updates_no_device (env : Env)
    (registration_ids : list string) (alert : alert_arg)
    (content_available : Z) (application_id : option string)
    (creds : option Credentials) (topic : option string)
    (badge : option Z) (snd : option string) (extra : dict pyval)
    (expiration : option Z) (thread_id lk : option string)
    (priority : option Z) (collapse_id : option string)
    (err_func : option ErrFunc) (w : World) (e : exn) (w' : World) :
  apns_send_bulk_message env registration_ids alert content_available
    application_id creds topic badge snd extra expiration thread_id lk
    priority collapse_id err_func w = (Raise e, w') ->
  devices w' = devices w /\ List.filter is_update (trace w') = List.filter is_update (trace w).
Proof.
  intros H. apply bulk_run in H.
  destruct H as [(-> & _)|(svc & sends & _ & Hthr & Htr & Hdev & _)]; [done|].
  split; [exact Hdev|]. rewrite Htr, List.filter_app.
  assert (List.filter is_update sends = []) as ->.
  { clear -Hthr. induction Hthr as [|ev evs [r ->] _ IH]; simpl; auto. }
  by rewrite app_nil_r.
Qed.

(** X2 on the batch of the connection error: ["xyz"] stays active. *)
Lemma bulk_that_raises_updates_no_device_witness :
  devices (snd (apns_send_bulk_message demo_env ["xyz"; "boom"; "abc"]
                  (AlertVal (PyStr "Hello")) 0 None None None None None []
                  None None None None None None demo_world))
  = devices demo_world
  /\ List.filter is_update
       (trace (snd (apns_send_bulk_message demo_env ["xyz"; "boom"; "abc"]
                      (AlertVal (PyStr "Hello")) 0 None None None None None []
                      None None None None None None demo_world)))
     = List.filter is_update (trace demo_world).
Proof.
  apply (bulk_that_raises_updates_no_device demo_env ["xyz"; "boom"; "abc"]
           (AlertVal (PyStr "Hello")) 0 None None None None None []
           None None None None None None demo_world
           (ConnectionError "MaxAttemptsExceeded")).
  reflexivity.
Defined.

Section Outcomes.

Variable env : Env.

(** The provider answers every send; it never raises. *)
Hypothesis provider_answers :
  forall before c r, exists res, send_notification env before c r = Ok res.

(** The tokens recorded are the ones already there and the ones sent to. *)
Lemma recorded_outcomes_keys (t : string) (evs : list event) :
  forall before results,
    In t (dict_keys (recorded_outcomes env before evs results)) <->
    In t (dict_keys results) \/ In t (sent_tokens evs).
Proof.
  induction evs as [|ev evs IH]; intros before results; simpl.
  - tauto.
  - destruct ev as [c r| |]; simpl; try apply IH.
    destruct (provider_answers before c r) as [res ->].
    rewrite IH, dict_keys_set. intuition.
Qed.

(** What is recorded for a token is the description of the answer to the
    last send to it, or what was there when no send was to it. *)
Lemma recorded_outcomes_get (t : string) (o : option string) (evs : list event) :
  forall before results,
    dict_get t (recorded_outcomes env before evs results) = Some o ->
    (dict_get t results = Some o /\ ~ In t (sent_tokens evs))
    \/ exists pre c r post res,
         evs = (pre ++ EvSend c r :: post)%list
         /\ device_token r = t
         /\ ~ In t (sent_tokens post)
         /\ send_notification env (before ++ pre) c r = Ok res
         /\ o = outcome_description res.
Proof.
  induction evs as [|ev evs IH]; intros before results H; simpl in *.
  - left. tauto.
  - assert (forall results',
              dict_get t (recorded_outcomes env (before ++ [ev]) evs results')
              = Some o ->
              (dict_get t results' = Some o /\ ~ In t (sent_tokens evs))
              \/ exists pre c r post res,
                   ev :: evs = (pre ++ EvSend c r :: post)%list
                   /\ device_token r = t
                   /\ ~ In t (sent_tokens post)
                   /\ send_notification env (before ++ pre) c r = Ok res
                   /\ o = outcome_description res) as Hrest.
    { intros results' H'. apply IH in H'.
      destruct H' as [H'|(pre & c & r & post & res & -> & Ht & Hn & Hs & Ho)];
        [by left|].
      right. exists (ev :: pre), c, r, post, res. repeat split; auto.
      by rewrite <- app_assoc in Hs. }
    destruct ev as [c r| |]; simpl;
      [|destruct (Hrest _ H) as [?|?]; auto..].
    destruct (send_notification env before c r) as [res|e] eqn:Hs.
    + destruct (Hrest _ H) as [[Hget Hn]|?]; [|by right].
      destruct (String.eqb (device_token r) t) eqn:E.
      * apply String.eqb_eq in E. right.
        exists [], c, r, evs, res. rewrite app_nil_r.
        repeat split; auto.
        rewrite <- E, dict_get_set_eq in Hget. congruence.
      * assert (t <> device_token r) as Hne.
        { intros ->. by rewrite String.eqb_refl in E. }
        left. rewrite dict_get_set_ne in Hget by exact Hne.
        split; [exact Hget|]. intros [?|?]; auto.
    + destruct (provider_answers before c r) as [res Hres]. congruence.
Qed.

Variables (apns_service : APNsService) (alert : alert_arg)
  (content_available : Z) (badge : option Z) (snd : option string)
  (extra : dict pyval) (expiration : option Z) (thread_id lk : option string)
  (priority : option Z) (collapse_id : option string).

(** With an alert that can be built and a provider that answers, the loop
    runs to its end. *)
Lemma loop_returns ids : forall results inactive w,
  well_formed w alert ->
  other_kind alert && truthy lk = false ->
  exists out w',
    bulk_loop env apns_service ids alert content_available badge snd extra
      expiration thread_id lk priority collapse_id results inactive w
    = (Ok out, w').
Proof.
  induction ids as [|rid rest IH]; intros results inactive w Hwf Hok.
  - by exists (results, inactive), w.
  - cbn [bulk_loop]. unfold bind at 1.
    destruct (build_returns env rid badge snd extra expiration thread_id lk
                priority collapse_id
                [("content-available", PyInt content_available)] [] []
                alert w Hwf Hok) as (request & w1 & Hb).
    rewrite Hb. unfold bind at 1. rewrite send_message_run.
    destruct (provider_answers (trace w1) (client apns_service) request)
      as [res ->].
    apply IH; [|exact Hok].
    destruct alert as [v|l]; [exact I|]. simpl in *.
    eapply build_keeps_objects; eauto.
Qed.

End Outcomes.

(** X1: when the setup succeeds, the alert can be built and the provider
    answers every send, the bulk call returns a mapping: its keys are the
    tokens of the batch, and each token is mapped to the description of
    the answer to the last send to it, "Success" or the provider's
    reason. *)
Theorem bulk_returns_the_outcomes (env : Env)
    (registration_ids : list string) (alert : alert_arg)
    (content_available : Z) (application_id : option string)
    (creds : option Credentials) (topic : option string)
    (badge : option Z) (snd : option string) (extra : dict pyval)
    (expiration : option Z) (thread_id lk : option string)
    (priority : option Z) (collapse_id : option string)
    (err_func : option ErrFunc) (w : World)
    (configured : option string) (svc : APNsService) :
  get_apns_topic env application_id = Ok configured ->
  APNsService_init env application_id creds configured err_func w = (Ok svc, w) ->
  well_formed w alert ->
  other_kind alert && truthy lk = false ->
  (forall before c r, exists res, send_notification env before c r = Ok res) ->
  exists results w' sends,
    apns_send_bulk_message env registration_ids alert content_available
      application_id creds topic badge snd extra expiration thread_id lk
      priority collapse_id err_func w = (Ok results, w')
    /\ sent_tokens sends = registration_ids
    /\ (forall t, In t (dict_keys results) <-> In t registration_ids)
    /\ (forall t o,
          dict_get t results = Some o ->
          exists pre c r post res,
            sends = (pre ++ EvSend c r :: post)%list
            /\ device_token r = t
            /\ ~ In t (sent_tokens post)
            /\ send_notification env (trace w ++ pre) c r = Ok res
            /\ o = outcome_description res).
Proof.
  intros Htopic Hinit Hwf Hok Hanswers.
  destruct (loop_returns env Hanswers svc alert content_available badge snd
              extra expiration thread_id lk priority collapse_id
              registration_ids [] [] w Hwf Hok) as ([results inactive] & w1 & Hloop).
  destruct (apns_send_bulk_message env registration_ids alert content_available
              application_id creds topic badge snd extra expiration thread_id
              lk priority collapse_id err_func w) as [out w'] eqn:Hrun.
  assert (exists results', out = Ok results') as [results' ->].
  { unfold apns_send_bulk_message in Hrun.
    unfold bind at 1 in Hrun. unfold lift at 1 in Hrun. rewrite Htopic in Hrun.
    unfold bind at 1 in Hrun. rewrite Hinit in Hrun.
    unfold bind at 1 in Hrun. rewrite Hloop in Hrun. simpl in Hrun.
    destruct inactive; simpl in Hrun; inversion Hrun; eauto. }
  pose proof Hrun as Hspec. apply bulk_run in Hspec.
  destruct Hspec as [(_ & e & He)|(svc' & sends & _ & _ & Hsent & Hres & _)];
    [discriminate|].
  exists results', w', sends. split; [reflexivity|]. split; [exact Hsent|].
  split.
  - intros t. rewrite Hres, recorded_outcomes_keys by exact Hanswers.
    rewrite Hsent. simpl. tauto.
  - intros t o Hget. rewrite Hres in Hget.
    apply recorded_outcomes_get in Hget; [|exact Hanswers].
    destruct Hget as [[Hnil _]|H]; [discriminate|exact H].
Qed.

(** X1 on the batch ["abc"; "xyz"; "abc"] with a provider that answers. *)
Lemma bulk_returns_the_outcomes_witness :
  exists results w' sends,
    apns_send_bulk_message answering_env ["abc"; "xyz"; "abc"]
      (AlertVal (PyStr "Hello")) 0 None None None None None []
      None None None None None None demo_world = (Ok results, w')
    /\ sent_tokens sends = ["abc"; "xyz"; "abc"]
    /\ (forall t, In t (dict_keys results) <-> In t ["abc"; "xyz"; "abc"])
    /\ (forall t o,
          dict_get t results = Some o ->
          exists pre c r post res,
            sends = (pre ++ EvSend c r :: post)%list
            /\ device_token r = t
            /\ ~ In t (sent_tokens post)
            /\ send_notification answering_env (trace demo_world ++ pre) c r
               = Ok res
            /\ o = outcome_description res).
Proof.
  apply (bulk_returns_the_outcomes answering_env ["abc"; "xyz"; "abc"]
           (AlertVal (PyStr "Hello")) 0 None None None None None []
           None None None None None None demo_world
           (Some "com.example.app") (mkAPNsService demo_client)).
  - reflexivity.
  - reflexivity.
  - exact I.
  - reflexivity.
  - intros before c r. simpl.
    destruct (String.eqb (device_token r) "xyz"); eauto.
Defined.

(** ** Further properties of the single call *)

(** A single call that returns has made exactly one send, to its token,
    and has updated no device. *)
Lemma single_that_returns (env : Env)
    (rid : string) (alert : alert_arg)
    (application_id : option string) (creds : option Credentials)
    (topic : option string) (badge : option Z) (snd : option string)
    (extra : dict pyval) (expiration : option Z) (thread_id lk : option string)
    (priority : option Z) (collapse_id : option string)
    (err_func : option ErrFunc) (w w' : World) (u : unit) :
  apns_send_message env rid alert application_id creds topic badge snd extra
    expiration thread_id lk priority collapse_id err_func w = (Ok u, w') ->
  exists c request,
    trace w' = (trace w ++ [EvSend c request])%list
    /\ device_token request = rid
    /\ devices w' = devices w.
Proof.
  intros H. apply single_run in H.
  destruct H as [(_ & _ & e & He)|(svc & request & w1 & _ & Hb & H)];
    [discriminate|].
  pose proof (build_token _ _ _ _ _ _ _ _ _ _ _ _ _ _ _ _ _ Hb) as Htok.
  apply build_frame in Hb. destruct Hb as [Ht Hd].
  exists (client svc), request.
  unfold single_outcome, sent, sent_and_deactivated in H.
  destruct (send_notification env (trace w1) (client svc) request) as [res|e].
  - destruct (is_successful res).
    + inversion H; subst; simpl. by rewrite Ht, Hd.
    + destruct (opt_str_eqb (description res) "Unregistered"); discriminate H.
  - destruct e; discriminate H.
Qed.

(** X6: no send is held back as a repeat: two single calls for the same token
    and intent that both return have made two sends to that token. *)
Theorem two_single_calls_are_two_sends (env : Env)
    (rid : string) (alert : alert_arg)
    (application_id : option string) (creds : option Credentials)
    (topic : option string) (badge : option Z) (snd : option string)
    (extra : dict pyval) (expiration : option Z) (thread_id lk : option string)
    (priority : option Z) (collapse_id : option string)
    (err_func : option ErrFunc) (w w1 w2 : World) :
  apns_send_message env rid alert application_id creds topic badge snd extra
    expiration thread_id lk priority collapse_id err_func w = (Ok tt, w1) ->
  apns_send_message env rid alert application_id creds topic badge snd extra
    expiration thread_id lk priority collapse_id err_func w1 = (Ok tt, w2) ->
  sent_tokens (trace w2) = (sent_tokens (trace w) ++ [rid; rid])%list.
Proof.
  intros H1 H2.
  apply single_that_returns in H1. destruct H1 as (c1 & r1 & Ht1 & <- & _).
  apply single_that_returns in H2. destruct H2 as (c2 & r2 & Ht2 & Hr2 & _).
  rewrite Ht2, Ht1. unfold sent_tokens. rewrite !omap_app. simpl.
  by rewrite Hr2, <- app_assoc.
Qed.

(** X6 for two calls for ["abc"], which the provider accepts. *)
Lemma two_single_calls_are_two_sends_witness :
  sent_tokens
    (trace
       (snd (apns_send_message demo_env "abc" (AlertVal (PyStr "Hello"))
               None None None None None [] None None None None None None
               (snd (apns_send_message demo_env "abc" (AlertVal (PyStr "Hello"))
                       None None None None None [] None None None None None
                       None demo_world)))))
  = (sent_tokens (trace demo_world) ++ ["abc"; "abc"])%list.
Proof.
  apply (two_single_calls_are_two_sends demo_env "abc"
           (AlertVal (PyStr "Hello")) None None None None None [] None None
           None None None None demo_world
           (snd (apns_send_message demo_env "abc" (AlertVal (PyStr "Hello"))
                   None None None None None [] None None None None None None
                   demo_world)));
    reflexivity.
Defined.

(** ** Merging the dictionaries *)

(** X7: in the message, an entry of [message_kwargs] wins over one of
    [extra], and both win over the ["aps"] object, which they can replace
    as a whole; in the [aps] object an entry of [aps_kwargs] wins over the
    alert, the badge, the sound and the thread id. *)
Theorem later_dictionaries_win (env : Env) (w : World) (rid : string)
    (alert : alert_arg)
    (badge : option Z) (snd : option string) (extra : dict pyval)
    (expiration : option Z) (thread_id lk : option string)
    (priority : option Z) (collapse_id : option string)
    (aps_kwargs message_kwargs : dict pyval) (nrk : dict kwval) :
  well_formed w alert ->
  other_kind alert && truthy lk = false ->
  NoDup (dict_keys aps_kwargs) ->
  NoDup (dict_keys extra) ->
  NoDup (dict_keys message_kwargs) ->
  exists r w' aps,
    _create_notification_request_from_args env rid alert badge snd extra
      expiration thread_id lk priority collapse_id aps_kwargs
      message_kwargs nrk w = (Ok r, w')
    /\ (forall k,
          dict_get k (message r) =
            overridden_by message_kwargs k
              (overridden_by extra k
                 (if String.eqb k "aps" then Some (PyDict aps) else None)))
    /\ (forall k,
          dict_get k aps =
            overridden_by aps_kwargs k
              (dict_get k
                 [("alert", alert_value (heap w) alert lk);
                  ("badge", opt_int badge); ("sound", opt_str snd);
                  ("thread-id", opt_str thread_id)])).
Proof.
  intros Hwf Hok Ha He Hm.
  destruct (build_returns env rid badge snd extra expiration thread_id lk
              priority collapse_id aps_kwargs message_kwargs nrk alert w
              Hwf Hok) as (r & w' & Hrun).
  destruct (build_value _ _ _ _ _ _ _ _ _ _ _ _ _ _ _ _ _ Hrun) as [-> _].
  do 3 eexists. split; [exact Hrun|]. split.
  - intros k. unfold request_of; simpl.
    rewrite !dict_get_update by assumption. simpl.
    by rewrite (String.eqb_sym k).
  - intros k. by rewrite dict_get_update by assumption.
Qed.

(** X7 where [extra] holds an ["aps"] entry of its own: the [aps] object
    the builder made is gone from the message. *)
Lemma later_dictionaries_win_witness :
  exists r w',
    _create_notification_request_from_args demo_env "abc"
      (AlertVal (PyStr "Hello")) (Some 3) None
      [("aps", PyStr "mine"); ("campaign", PyInt 7)] None None None None None
      [("badge", PyInt 9)] [("campaign", PyInt 8)] [] demo_world = (Ok r, w')
    /\ dict_get "aps" (message r) = Some (PyStr "mine")
    /\ dict_get "campaign" (message r) = Some (PyInt 8).
Proof.
  destruct (later_dictionaries_win demo_env demo_world "abc"
              (AlertVal (PyStr "Hello")) (Some 3) None
              [("aps", PyStr "mine"); ("campaign", PyInt 7)] None None None
              None None [("badge", PyInt 9)] [("campaign", PyInt 8)] [])
    as (r & w' & aps & Hrun & Hmsg & _).
  - exact I.
  - reflexivity.
  - apply NoDup_ListNoDup. repeat constructor; simpl; tauto.
  - apply NoDup_ListNoDup. repeat constructor; simpl; intuition discriminate.
  - apply NoDup_ListNoDup. repeat constructor; simpl; tauto.
  - exists r, w'. split; [exact Hrun|]. by rewrite !Hmsg.
Defined.



(** ** The client and the setup *)

(** X9: what a client that was created is made of.  The sandbox flag is
    always the configured one and the error function the caller's; a topic
    or credentials the caller gives are kept, and otherwise the topic is
    the configured one and the credentials are the certificate, or the
    key, key id and team id when the application has token credentials. *)
Theorem client_is_made_of (env : Env)
    (creds : option Credentials) (application_id : option string)
    (topic : option string) (err_func : option ErrFunc)
    (w w' : World) (c : APNs) :
  _create_client env creds application_id topic err_func w = (Ok c, w') ->
  w' = w
  /\ get_apns_use_sandbox env application_id = Ok (apns_use_sandbox c)
  /\ apns_err_func c = err_func
  /\ match topic with
     | Some t => apns_topic c = Some t
     | None => get_apns_topic env application_id = Ok (apns_topic c)
     end
  /\ match creds with
     | Some given => apns_creds c = given
     | None =>
         (has_auth_token_creds env application_id = Ok false
          /\ exists cert,
               get_apns_certificate env application_id = Ok cert
               /\ apns_creds c = CertificateCredentials cert)
         \/ (has_auth_token_creds env application_id = Ok true
             /\ exists key key_id team_id,
                  get_apns_auth_creds env application_id
                  = Ok (key, key_id, team_id)
                  /\ apns_creds c = TokenCredentials key key_id team_id)
     end.
Proof.
  intros H.
  pose proof (create_client_pure env creds application_id topic err_func w)
    as Hpure.
  rewrite H in Hpure. simpl in Hpure. split; [exact Hpure|].
  unfold _create_client, _get_credentials in H. unfold_monad.
  destruct (get_apns_use_sandbox env application_id) as [b|]; [|discriminate].
  destruct topic as [t|].
  - destruct creds as [given|]; [by inversion H|].
    destruct (has_auth_token_creds env application_id) as [[]|];
      [| |discriminate]; simpl in H.
    + destruct (get_apns_auth_creds env application_id) as [[[k i] tm]|];
        [|discriminate].
      inversion H; subst; simpl. repeat split; auto. right. eauto 10.
    + destruct (get_apns_certificate env application_id) as [cert|];
        [|discriminate].
      inversion H; subst; simpl. repeat split; auto. left. eauto.
  - destruct (get_apns_topic env application_id) as [t|]; [|discriminate].
    destruct creds as [given|]; [by inversion H|].
    destruct (has_auth_token_creds env application_id) as [[]|];
      [| |discriminate]; simpl in H.
    + destruct (get_apns_auth_creds env application_id) as [[[k i] tm]|];
        [|discriminate].
      inversion H; subst; simpl. repeat split; auto. right. eauto 10.
    + destruct (get_apns_certificate env application_id) as [cert|];
        [|discriminate].
      inversion H; subst; simpl. repeat split; auto. left. eauto.
Qed.

(** X9 for the client of [demo_env], which has no token credentials. *)
Lemma client_is_made_of_witness :
  get_apns_use_sandbox demo_env None = Ok (apns_use_sandbox demo_client)
  /\ get_apns_topic demo_env None = Ok (apns_topic demo_client)
  /\ apns_creds demo_client = CertificateCredentials "cert.pem".
Proof.
  destruct (client_is_made_of demo_env None None None None
              demo_world demo_world demo_client eq_refl)
    as (_ & Hsandbox & _ & Htopic & _).
  repeat split; assumption.
Defined.

(** X10: with credentials and a topic of the caller's, the sandbox flag is
    the only setting read: the client is created whatever the settings say
    about topics, certificates and keys, even when those lookups fail. *)
Theorem explicit_client_reads_the_sandbox_flag_only (env : Env)
    (given : Credentials) (application_id : option string)
    (t : string) (err_func : option ErrFunc) (w : World) (sandbox : bool) :
  get_apns_use_sandbox env application_id = Ok sandbox ->
  _create_client env (Some given) application_id (Some t) err_func w
  = (Ok (mkAPNs given (Some t) sandbox err_func), w).
Proof.
  intros H. unfold _create_client. unfold_monad. by rewrite H.
Qed.

(** X10 with settings that know the sandbox flag and nothing else. *)
Lemma explicit_client_reads_the_sandbox_flag_only_witness :
  _create_client
    (mkEnv (fun _ => Ok false)
       (fun _ => Raise (ImproperlyConfigured "APNS_TOPIC"))
       (fun _ => Raise (ImproperlyConfigured "APNS_AUTH_KEY_PATH"))
       (fun _ => Raise (ImproperlyConfigured "APNS_CERTIFICATE"))
       (fun _ => Raise (ImproperlyConfigured "APNS_AUTH_KEY_ID"))
       (send_notification demo_env) (time_time demo_env))
    (Some (TokenCredentials "key.p8" "KEYID" "TEAMID")) (Some "app")
    (Some "com.example.app") None demo_world
  = (Ok (mkAPNs (TokenCredentials "key.p8" "KEYID" "TEAMID")
           (Some "com.example.app") false None), demo_world).
Proof.
  apply explicit_client_reads_the_sandbox_flag_only. reflexivity.
Defined.

(** X11: when the setup fails nothing is sent and nothing changes.  The
    bulk call raises what the settings raised; the single call does too,
    but for a connection error, which it raises as [APNSServerError]. *)
Theorem failed_setup_sends_nothing (env : Env)
    (registration_ids : list string) (rid : string) (alert : alert_arg)
    (content_available : Z) (application_id : option string)
    (creds : option Credentials) (topic : option string)
    (badge : option Z) (snd : option string) (extra : dict pyval)
    (expiration : option Z) (thread_id lk : option string)
    (priority : option Z) (collapse_id : option string)
    (err_func : option ErrFunc) (w : World) (e : exn) :
  ((get_apns_topic env application_id = Raise e
    \/ exists configured,
         get_apns_topic env application_id = Ok configured
         /\ fst (APNsService_init env application_id creds configured
                   err_func w) = Raise e) ->
   apns_send_bulk_message env registration_ids alert content_available
     application_id creds topic badge snd extra expiration thread_id lk
     priority collapse_id err_func w = (Raise e, w))
  /\ (fst (APNsService_init env application_id creds topic err_func w)
      = Raise e ->
      apns_send_message env rid alert application_id creds topic badge snd
        extra expiration thread_id lk priority collapse_id err_func w
      = (Raise (translated e), w)).
Proof.
  split.
  - intros [H|(configured & Htopic & Hinit)];
      unfold apns_send_bulk_message; unfold bind at 1; unfold lift at 1.
    + by rewrite H.
    + rewrite Htopic. unfold bind at 1.
      pose proof (init_pure env application_id creds configured err_func w)
        as Hpure.
      destruct (APNsService_init env application_id creds configured
                  err_func w) as [out w0]; simpl in *. by subst.
  - intros Hinit.
    unfold apns_send_message, except_ConnectionError. unfold bind at 1.
    pose proof (init_pure env application_id creds topic err_func w) as Hpure.
    destruct (APNsService_init env application_id creds topic err_func w)
      as [out w0]; simpl in *. subst. by destruct e.
Qed.

(** X11 with settings that know no topic: the bulk call raises that, and
    so does the single call when no topic is given. *)
Lemma failed_setup_sends_nothing_witness :
  apns_send_bulk_message
    (mkEnv (get_apns_use_sandbox demo_env)
       (fun _ => Raise (ImproperlyConfigured "APNS_TOPIC"))
       (has_auth_token_creds demo_env) (get_apns_certificate demo_env)
       (get_apns_auth_creds demo_env) (send_notification demo_env)
       (time_time demo_env))
    ["abc"; "xyz"] (AlertVal (PyStr "Hello")) 0 None None None None None []
    None None None None None None demo_world
  = (Raise (ImproperlyConfigured "APNS_TOPIC"), demo_world)
  /\ apns_send_message
       (mkEnv (get_apns_use_sandbox demo_env)
          (fun _ => Raise (ImproperlyConfigured "APNS_TOPIC"))
          (has_auth_token_creds demo_env) (get_apns_certificate demo_env)
          (get_apns_auth_creds demo_env) (send_notification demo_env)
          (time_time demo_env))
       "abc" (AlertVal (PyStr "Hello")) None None None None None []
       None None None None None None demo_world
     = (Raise (ImproperlyConfigured "APNS_TOPIC"), demo_world).
Proof.
  destruct (failed_setup_sends_nothing
              (mkEnv (get_apns_use_sandbox demo_env)
                 (fun _ => Raise (ImproperlyConfigured "APNS_TOPIC"))
                 (has_auth_token_creds demo_env)
                 (get_apns_certificate demo_env)
                 (get_apns_auth_creds demo_env) (send_notification demo_env)
                 (time_time demo_env))
              ["abc"; "xyz"] "abc" (AlertVal (PyStr "Hello")) 0 None None None
              None None [] None None None None None None demo_world
              (ImproperlyConfigured "APNS_TOPIC")) as [Hbulk Hsingle].
  split.
  - apply Hbulk. by left.
  - apply Hsingle. reflexivity.
Defined.

(** X12: an empty batch.  Once the setup has succeeded the bulk call
    returns the empty mapping and leaves the world as it was: nothing is
    sent, no device is updated, and the alert is not even looked at, so
    that one the builder would reject passes. *)
Theorem empty_batch_returns_empty_mapping (env : Env) (alert : alert_arg)
    (content_available : Z) (application_id : option string)
    (creds : option Credentials) (topic : option string)
    (badge : option Z) (snd : option string) (extra : dict pyval)
    (expiration : option Z) (thread_id lk : option string)
    (priority : option Z) (collapse_id : option string)
    (err_func : option ErrFunc) (w : World)
    (configured : option string) (svc : APNsService) :
  get_apns_topic env application_id = Ok configured ->
  APNsService_init env application_id creds configured err_func w = (Ok svc, w) ->
  apns_send_bulk_message env [] alert content_available application_id creds
    topic badge snd extra expiration thread_id lk priority collapse_id
    err_func w = (Ok [], w).
Proof.
  intros Htopic Hinit. unfold apns_send_bulk_message.
  unfold bind at 1. unfold lift at 1. rewrite Htopic.
  unfold bind at 1. rewrite Hinit. simpl. by destruct w.
Qed.

(** X12 with the alert [5] and a localisation key, which the builder
    rejects. *)
Lemma empty_batch_returns_empty_mapping_witness :
  apns_send_bulk_message demo_env [] (AlertVal (PyInt 5)) 0 None None None
    None None [] None None (Some "GREETING") None None None demo_world
  = (Ok [], demo_world).
Proof.
  apply (empty_batch_returns_empty_mapping demo_env (AlertVal (PyInt 5)) 0
           None None None None None [] None None (Some "GREETING") None None
           None demo_world (Some "com.example.app")
           (mkAPNsService demo_client));
    reflexivity.
Defined.

(** X13: an alert of a builtin kind that takes no attribute (an integer, a
    boolean, a list, a plain dict), given with a non-empty localisation
    key.  Once the setup has succeeded, the single call raises
    [AttributeError] as it is, and so does the bulk call on a batch that
    is not empty; nothing is sent and nothing changes. *)
Theorem rejected_alert_sends_nothing (env : Env)
    (rid : string) (rest : list string) (v : pyval)
    (content_available : Z) (application_id : option string)
    (creds : option Credentials) (topic : option string)
    (badge : option Z) (snd : option string) (extra : dict pyval)
    (expiration : option Z) (thread_id lk : option string)
    (priority : option Z) (collapse_id : option string)
    (err_func : option ErrFunc) (w : World)
    (configured : option string) (svc svc' : APNsService) :
  other_kind (AlertVal v) = true ->
  truthy lk = true ->
  get_apns_topic env application_id = Ok configured ->
  APNsService_init env application_id creds configured err_func w = (Ok svc, w) ->
  APNsService_init env application_id creds topic err_func w = (Ok svc', w) ->
  apns_send_bulk_message env (rid :: rest) (AlertVal v) content_available
    application_id creds topic badge snd extra expiration thread_id lk
    priority collapse_id err_func w = (Raise AttributeError, w)
  /\ apns_send_message env rid (AlertVal v) application_id creds topic badge
       snd extra expiration thread_id lk priority collapse_id err_func w
     = (Raise AttributeError, w).
Proof.
  intros Hv Hk Htopic Hinit Hinit'. split.
  - unfold apns_send_bulk_message.
    unfold bind at 1. unfold lift at 1. rewrite Htopic.
    unfold bind at 1. rewrite Hinit.
    unfold bind at 1. cbn [bulk_loop]. unfold bind at 1.
    by rewrite build_other_loc.
  - unfold apns_send_message, except_ConnectionError.
    unfold bind at 1. rewrite Hinit'.
    unfold bind at 1. by rewrite build_other_loc.
Qed.

(** X13 for the alert [5] with the key ["GREETING"]. *)
Lemma rejected_alert_sends_nothing_witness :
  apns_send_bulk_message demo_env ["abc"; "xyz"] (AlertVal (PyInt 5)) 0 None
    None None None None [] None None (Some "GREETING") None None None
    demo_world = (Raise AttributeError, demo_world)
  /\ apns_send_message demo_env "abc" (AlertVal (PyInt 5)) None None None
       None None [] None None (Some "GREETING") None None None demo_world
     = (Raise AttributeError, demo_world).
Proof.
  apply (rejected_alert_sends_nothing demo_env "abc" ["xyz"] (PyInt 5) 0
           None None None None None [] None None (Some "GREETING") None None
           None demo_world (Some "com.example.app")
           (mkAPNsService demo_client) (mkAPNsService demo_client));
    reflexivity.
Defined.

(** ** The objects of the caller *)

Lemma keeps_ret {A} l a (x : A) : keeps_object l a (ret x).
Proof. intros w out w' H. by inversion H. Qed.

Lemma keeps_raise {A} l a (e : exn) : keeps_object l a (@raise A e).
Proof. intros w out w' H. by inversion H. Qed.

Lemma keeps_pure {A} l a (m : M A) : pure m -> keeps_object l a m.
Proof.
  intros Hp w out w' H. specialize (Hp w). rewrite H in Hp. simpl in Hp.
  by subst.
Qed.

Lemma keeps_bind {A B} l a (m : M A) (k : A -> M B) :
  keeps_object l a m -> (forall x, keeps_object l a (k x)) ->
  keeps_object l a (bind m k).
Proof.
  intros Hm Hk w out w' H Hl. unfold bind in H.
  destruct (m w) as [[x|e] w1] eqn:E.
  - eapply Hk; [exact H|]. eapply Hm; eauto.
  - inversion H; subst. eapply Hm; eauto.
Qed.

Lemma keeps_except {A} l a (m : M A) :
  keeps_object l a m -> keeps_object l a (except_ConnectionError m).
Proof.
  intros Hm w out w' H Hl. unfold except_ConnectionError in H.
  destruct (m w) as [[x|e] w1] eqn:E.
  - inversion H; subst. eapply Hm; eauto.
  - assert (w' = w1) as -> by (destruct e; by inversion H).
    eapply Hm; eauto.
Qed.

Lemma keeps_update l a (e : event) (f : list APNSDevice -> list APNSDevice) :
  keeps_object l a (update_devices e f).
Proof. intros w out w' H. by inversion H. Qed.

(** A new object never takes the place of one that exists. *)
Lemma next_loc_is_new (w : World) (l : loc) (a : Alert) :
  heap w !! l = Some a -> next_loc w <> l.
Proof.
  intros Hl E. unfold next_loc in E.
  pose proof (is_fresh (dom (heap w))) as Hfresh.
  apply Hfresh. rewrite E. apply elem_of_dom. eauto.
Qed.

Section Objects.

Variable env : Env.

Variables (alert : alert_arg) (lk : option string) (l : loc) (a : Alert).

Hypothesis a_settled : settled alert lk l a.

Lemma keeps_send svc request : keeps_object l a (send_message env svc request).
Proof.
  intros w out w' H. rewrite send_message_run in H. by inversion H.
Qed.

(** The builder leaves a settled object as it is. *)
Lemma keeps_build rid badge snd extra expiration thread_id priority
    collapse_id aps_kwargs message_kwargs nrk :
  keeps_object l a
    (_create_notification_request_from_args env rid alert badge snd extra
       expiration thread_id lk priority collapse_id aps_kwargs
       message_kwargs nrk).
Proof.
  intros w out w' H Hl. revert out w' H.
  apply (build_cases env rid badge snd extra expiration thread_id lk priority
           collapse_id aps_kwargs message_kwargs nrk alert w
           (fun run => forall out w', run = (out, w') ->
                       heap w' !! l = Some a));
    intros; simplify_eq; simpl; auto;
    pose proof (next_loc_is_new _ _ _ Hl) as Hnew;
    rewrite ?lookup_insert_ne by exact Hnew; auto.
  match goal with
  | Hk : truthy lk = true, Ha : heap w !! ?l0 = Some ?a0 |- _ =>
      destruct (decide (l0 = l)) as [->|Hne];
      [ rewrite lookup_insert_eq; rewrite Hl in Ha; injection Ha as <-;
        by rewrite a_settled
      | by rewrite lookup_insert_ne ]
  end.
Qed.

Lemma keeps_loop svc content_available badge snd extra expiration thread_id
    priority collapse_id ids :
  forall results inactive,
    keeps_object l a
      (bulk_loop env svc ids alert content_available badge snd extra
         expiration thread_id lk priority collapse_id results inactive).
Proof.
  induction ids as [|rid rest IH]; intros results inactive; cbn [bulk_loop].
  - apply keeps_ret.
  - apply keeps_bind; [apply keeps_build|]. intros request.
    apply keeps_bind; [apply keeps_send|]. intros result. apply IH.
Qed.

Lemma keeps_bulk registration_ids content_available application_id creds
    topic badge snd extra expiration thread_id priority collapse_id err_func :
  keeps_object l a
    (apns_send_bulk_message env registration_ids alert content_available
       application_id creds topic badge snd extra expiration thread_id lk
       priority collapse_id err_func).
Proof.
  unfold apns_send_bulk_message.
  apply keeps_bind; [apply keeps_pure, pure_lift|]. intros configured.
  apply keeps_bind; [apply keeps_pure, init_pure|]. intros svc.
  apply keeps_bind; [apply keeps_loop|]. intros [results inactive]. simpl.
  apply keeps_bind; [|intros; apply keeps_ret].
  destruct (0 <? length inactive)%nat; [apply keeps_update|apply keeps_ret].
Qed.

Lemma keeps_single rid application_id creds topic badge snd extra expiration
    thread_id priority collapse_id err_func :
  keeps_object l a
    (apns_send_message env rid alert application_id creds topic badge snd
       extra expiration thread_id lk priority collapse_id err_func).
Proof.
  unfold apns_send_message. apply keeps_except.
  apply keeps_bind; [apply keeps_pure, init_pure|]. intros svc.
  apply keeps_bind; [apply keeps_build|]. intros request.
  apply keeps_bind; [apply keeps_send|]. intros res.
  destruct (negb (is_successful res)); [|apply keeps_ret].
  apply keeps_bind; [|intros; apply keeps_raise].
  destruct (opt_str_eqb (description res) "Unregistered");
    [apply keeps_update|apply keeps_ret].
Qed.

End Objects.

(** X14: the builder and both calls change no object of the caller's but
    the alert they are given, and that one only to set a localisation
    key: every other object, and the alert itself when no key is to be
    set, is after the call what it was before, whether the call returns
    or raises. *)
Theorem calls_leave_other_objects (env : Env)
    (registration_ids : list string) (rid : string) (alert : alert_arg)
    (content_available : Z) (application_id : option string)
    (creds : option Credentials) (topic : option string)
    (badge : option Z) (snd : option string) (extra : dict pyval)
    (expiration : option Z) (thread_id lk : option string)
    (priority : option Z) (collapse_id : option string)
    (aps_kwargs message_kwargs : dict pyval) (nrk : dict kwval)
    (err_func : option ErrFunc) (w : World) (l : loc) (a : Alert) :
  heap w !! l = Some a ->
  (alert = AlertRef l -> truthy lk = false) ->
  (forall out w',
     _create_notification_request_from_args env rid alert badge snd extra
       expiration thread_id lk priority collapse_id aps_kwargs
       message_kwargs nrk w = (out, w') ->
     heap w' !! l = Some a)
  /\ (forall out w',
        apns_send_message env rid alert application_id creds topic badge snd
          extra expiration thread_id lk priority collapse_id err_func w
        = (out, w') ->
        heap w' !! l = Some a)
  /\ (forall out w',
        apns_send_bulk_message env registration_ids alert content_available
          application_id creds topic badge snd extra expiration thread_id lk
          priority collapse_id err_func w = (out, w') ->
        heap w' !! l = Some a).
Proof.
  intros Hl Hplain.
  assert (settled alert lk l a) as Hs.
  { intros Hal Hk. rewrite (Hplain Hal) in Hk. discriminate Hk. }
  repeat split; intros out w' H.
  - eapply keeps_build; eauto.
  - eapply keeps_single; eauto.
  - eapply keeps_bulk; eauto.
Qed.

(** X14 for a caller holding an alert at address 7 and sending a plain
    string with a localisation key: the object at 7 is not touched. *)
Lemma calls_leave_other_objects_witness :
  heap (snd (apns_send_bulk_message demo_env ["abc"; "xyz"]
               (AlertVal (PyStr "Hello")) 0 None None None None None [] None
               None (Some "GREETING") None None None
               (mkWorld {[ 7%nat := Alert_body (PyStr "kept") ]}
                  (devices demo_world) []))) !! 7%nat
  = Some (Alert_body (PyStr "kept")).
Proof.
  destruct (calls_leave_other_objects demo_env ["abc"; "xyz"] "abc"
              (AlertVal (PyStr "Hello")) 0 None None None None None [] None
              None (Some "GREETING") None None [] [] [] None
              (mkWorld {[ 7%nat := Alert_body (PyStr "kept") ]}
                 (devices demo_world) [])
              7%nat (Alert_body (PyStr "kept")))
    as (_ & _ & Hbulk).
  - reflexivity.
  - discriminate.
  - eapply Hbulk. apply surjective_pairing.
Defined.

(** X15: the localisation key written into the caller's alert stays
    written when the call fails.  Once the setup has succeeded, a single
    call, and a bulk call on a batch that is not empty, leave the alert
    with its [loc_key] set, whether they return or raise, whatever the
    provider answers. *)
Theorem loc_key_stays_written (env : Env)
    (rid : string) (rest : list string) (l : loc) (a : Alert) (k : string)
    (content_available : Z) (application_id : option string)
    (creds : option Credentials) (topic : option string)
    (badge : option Z) (snd : option string) (extra : dict pyval)
    (expiration : option Z) (thread_id : option string)
    (priority : option Z) (collapse_id : option string)
    (err_func : option ErrFunc) (w : World)
    (configured : option string) (svc svc' : APNsService) :
  heap w !! l = Some a ->
  k <> "" ->
  get_apns_topic env application_id = Ok configured ->
  APNsService_init env application_id creds configured err_func w = (Ok svc, w) ->
  APNsService_init env application_id creds topic err_func w = (Ok svc', w) ->
  (forall out w',
     apns_send_message env rid (AlertRef l) application_id creds topic badge
       snd extra expiration thread_id (Some k) priority collapse_id err_func w
     = (out, w') ->
     heap w' !! l = Some (set_loc_key a (PyStr k)))
  /\ (forall out w',
        apns_send_bulk_message env (rid :: rest) (AlertRef l)
          content_available application_id creds topic badge snd extra
          expiration thread_id (Some k) priority collapse_id err_func w
        = (out, w') ->
        heap w' !! l = Some (set_loc_key a (PyStr k))).
Proof.
  intros Hl Hk Htopic Hinit Hinit'.
  assert (truthy (Some k) = true) as Ht.
  { simpl. destruct (String.eqb k "") eqn:E; [|reflexivity].
    apply String.eqb_eq in E. contradiction. }
  assert (settled (AlertRef l) (Some k) l (set_loc_key a (PyStr k))) as Hs.
  { intros _ _. reflexivity. }
  split; intros out w' H.
  - unfold apns_send_message, except_ConnectionError in H.
    unfold bind at 1 in H. rewrite Hinit' in H.
    unfold bind at 1 in H.
    rewrite build_ref_loc with (a := a) in H by assumption.
    match type of H with
    | match ?m ?w1 with _ => _ end = _ =>
        assert (keeps_object l (set_loc_key a (PyStr k)) m) as Hkeep;
        [|destruct (m w1) as [o w2] eqn:E;
          assert (w' = w2) as ->
            by (destruct o as [|[]]; by inversion H);
          eapply Hkeep; [exact E|apply lookup_insert_eq]]
    end.
    apply keeps_bind; [apply keeps_send|].
    intros res. destruct (negb (is_successful res)); [|apply keeps_ret].
    apply keeps_bind; [|intros; apply keeps_raise].
    destruct (opt_str_eqb (description res) "Unregistered");
      [apply keeps_update|apply keeps_ret].
  - unfold apns_send_bulk_message in H.
    unfold bind at 1 in H. unfold lift at 1 in H. rewrite Htopic in H.
    unfold bind at 1 in H. rewrite Hinit in H.
    cbn [bulk_loop] in H.
    match type of H with
    | bind (bind ?b ?k1) ?k2 ?w0 = _ =>
        change (bind (bind b k1) k2 w0)
          with (match bind b k1 w0 with
                | (Ok x, w2) => k2 x w2
                | (Raise e, w2) => (Raise e, w2)
                end) in H;
        change (bind b k1 w0)
          with (match b w0 with
                | (Ok x, w2) => k1 x w2
                | (Raise e, w2) => (Raise e, w2)
                end) in H
    end.
    rewrite build_ref_loc with (a := a) in H by assumption.
    match type of H with
    | match ?m ?w1 with _ => _ end = _ =>
        assert (keeps_object l (set_loc_key a (PyStr k)) m) as Hkeep;
        [|destruct (m w1) as [[[results inactive]|e] w2] eqn:E;
          [|inversion H; subst; eapply Hkeep;
            [exact E|apply lookup_insert_eq]]]
    end.
    + apply keeps_bind; [apply keeps_send|].
      intros result. by apply keeps_loop.
    + assert (heap w2 !! l = Some (set_loc_key a (PyStr k))) as Hw2.
      { eapply Hkeep; [exact E|apply lookup_insert_eq]. }
      simpl in H. unfold bind, update_devices, ret in H.
      destruct (0 <? length inactive)%nat; inversion H; subst; exact Hw2.
Qed.

(** X15 for a single call that raises "Unregistered" and a bulk call cut
    short by a connection error: the alert at address 7 has the key. *)
Lemma loc_key_stays_written_witness :
  heap (snd (apns_send_message demo_env "xyz" (AlertRef 7%nat) None None
               None None None [] None None (Some "GREETING") None None None
               (mkWorld {[ 7%nat := Alert_body (PyStr "Hi") ]}
                  (devices demo_world) []))) !! 7%nat
  = Some (set_loc_key (Alert_body (PyStr "Hi")) (PyStr "GREETING"))
  /\ heap (snd (apns_send_bulk_message demo_env ["boom"; "abc"]
                  (AlertRef 7%nat) 0 None None None None None [] None None
                  (Some "GREETING") None None None
                  (mkWorld {[ 7%nat := Alert_body (PyStr "Hi") ]}
                     (devices demo_world) []))) !! 7%nat
     = Some (set_loc_key (Alert_body (PyStr "Hi")) (PyStr "GREETING")).
Proof.
  destruct (loc_key_stays_written demo_env "xyz" [] 7%nat
              (Alert_body (PyStr "Hi")) "GREETING" 0 None None None None None
              [] None None None None None
              (mkWorld {[ 7%nat := Alert_body (PyStr "Hi") ]}
                 (devices demo_world) [])
              (Some "com.example.app") (mkAPNsService demo_client)
              (mkAPNsService demo_client))
    as [Hsingle _]; [reflexivity|discriminate|reflexivity..|].
  destruct (loc_key_stays_written demo_env "boom" ["abc"] 7%nat
              (Alert_body (PyStr "Hi")) "GREETING" 0 None None None None None
              [] None None None None None
              (mkWorld {[ 7%nat := Alert_body (PyStr "Hi") ]}
                 (devices demo_world) [])
              (Some "com.example.app") (mkAPNsService demo_client)
              (mkAPNsService demo_client))
    as [_ Hbulk]; [reflexivity|discriminate|reflexivity..|].
  split.
  - eapply Hsingle. apply surjective_pairing.
  - eapply Hbulk. apply surjective_pairing.
Defined.

(** ** The requests of a batch *)

(** A request depends on the world through its trace only. *)
Lemma request_of_trace (env : Env) (w1 w2 : World) rid v p badge snd extra
    expiration thread_id priority collapse_id aps_kwargs message_kwargs nrk :
  trace w1 = trace w2 ->
  request_of env w1 rid v p badge snd extra expiration thread_id priority
    collapse_id aps_kwargs message_kwargs nrk
  = request_of env w2 rid v p badge snd extra expiration thread_id priority
      collapse_id aps_kwargs message_kwargs nrk.
Proof. intros H. unfold request_of. by rewrite H. Qed.

Section Batch.

Variable env : Env.

Variables (c : APNs) (v : pyval) (p : PushType)
  (content_available : Z) (badge : option Z) (snd : option string)
  (extra : dict pyval) (expiration : option Z) (thread_id : option string)
  (priority : option Z) (collapse_id : option string).

Let batch before ids : list event :=
  batch_sends env c v p content_available badge snd extra expiration
    thread_id priority collapse_id before ids.

Let request before rid : NotificationRequest :=
  request_of env (at_trace before) rid v p badge snd extra expiration
    thread_id priority collapse_id
    [("content-available", PyInt content_available)] [] [].

(** The send at a place in the batch: through the one client, with the
    request built after the sends before it. *)
Lemma batch_sends_at ids : forall before pre c' r post,
  batch before ids = (pre ++ EvSend c' r :: post)%list ->
  c' = c /\ exists rid, r = request (before ++ pre)%list rid.
Proof.
  induction ids as [|rid rest IH]; intros before pre c' r post H;
    simpl in H.
  - by destruct pre.
  - destruct pre as [|e pre]; simpl in H.
    + inversion H; subst. rewrite app_nil_r. eauto.
    + injection H as <- H. apply IH in H. destruct H as [-> [rid' ->]].
      split; [reflexivity|]. exists rid'. by rewrite <- app_assoc.
Qed.

Lemma batch_sends_tokens ids : forall before,
  sent_tokens (batch before ids) = ids.
Proof.
  induction ids as [|rid rest IH]; intros before; simpl; [reflexivity|].
  f_equal. apply IH.
Qed.

End Batch.

Section LoopSends.

Variable env : Env.

Variables (apns_service : APNsService) (alert : alert_arg)
  (content_available : Z) (badge : option Z) (snd : option string)
  (extra : dict pyval) (expiration : option Z) (thread_id lk : option string)
  (priority : option Z) (collapse_id : option string).

(** The loop's sends are the batch's, from the first on, up to where the
    loop stops; all of them when it runs to its end. *)
Lemma loop_sends ids : forall results inactive w out w',
  bulk_loop env apns_service ids alert content_available badge snd extra
    expiration thread_id lk priority collapse_id results inactive w
  = (out, w') ->
  exists sends,
    trace w' = (trace w ++ sends)%list
    /\ sends `prefix_of`
         batch_sends env (client apns_service)
           (alert_value (heap w) alert lk) (push_type_for alert)
           content_available badge snd extra expiration thread_id priority
           collapse_id (trace w) ids
    /\ (forall x, out = Ok x ->
        sends =
          batch_sends env (client apns_service)
            (alert_value (heap w) alert lk) (push_type_for alert)
            content_available badge snd extra expiration thread_id priority
            collapse_id (trace w) ids).
Proof.
  induction ids as [|rid rest IH]; intros results inactive w out w' H.
  - inversion H; subst. exists []. rewrite app_nil_r. simpl. auto.
  - cbn [bulk_loop] in H. unfold bind at 1 in H.
    destruct (_create_notification_request_from_args env rid alert badge snd
                extra expiration thread_id lk priority collapse_id
                [("content-available", PyInt content_available)] [] [] w)
      as [[request|e] w1] eqn:Hb.
    + pose proof (build_frame _ _ _ _ _ _ _ _ _ _ _ _ _ _ _ _ _ Hb) as [Ht _].
      destruct (build_value _ _ _ _ _ _ _ _ _ _ _ _ _ _ _ _ _ Hb)
        as [Hreq Hval].
      rewrite (request_of_trace env w (at_trace (trace w))) in Hreq
        by reflexivity.
      unfold bind at 1 in H. rewrite send_message_run in H.
      cbn [batch_sends]. rewrite <- Hreq.
      destruct (send_notification env (trace w1) (client apns_service) request)
        as [res|e].
      * apply IH in H. destruct H as (sends & Htr & Hpre & Hall).
        simpl in Htr, Hpre, Hall. rewrite Hval, Ht in Hpre, Hall.
        exists (EvSend (client apns_service) request :: sends).
        rewrite Htr, Ht, <- app_assoc. split; [reflexivity|]. split.
        -- by apply prefix_cons.
        -- intros x Hx. f_equal. by eapply Hall.
      * injection H as <- <-. simpl.
        exists [EvSend (client apns_service) request].
        rewrite Ht. split; [reflexivity|]. split; [|discriminate].
        apply prefix_cons, prefix_nil.
    + inversion H; subst.
      pose proof (build_frame _ _ _ _ _ _ _ _ _ _ _ _ _ _ _ _ _ Hb) as [Ht _].
      exists []. rewrite app_nil_r. split; [done|]. split; [|discriminate].
      apply prefix_nil.
Qed.

(** With an alert that can be built, a loop that raises has just made the
    send that raised. *)
Lemma loop_raises ids : forall results inactive w e w',
  well_formed w alert ->
  other_kind alert && truthy lk = false ->
  bulk_loop env apns_service ids alert content_available badge snd extra
    expiration thread_id lk priority collapse_id results inactive w
  = (Raise e, w') ->
  exists pre r,
    trace w' = (trace w ++ pre ++ [EvSend (client apns_service) r])%list
    /\ send_notification env (trace w ++ pre) (client apns_service) r = Raise e
    /\ sent_tokens (pre ++ [EvSend (client apns_service) r]) `prefix_of` ids.
Proof.
  induction ids as [|rid rest IH]; intros results inactive w e w' Hwf Hok H.
  - discriminate H.
  - cbn [bulk_loop] in H. unfold bind at 1 in H.
    destruct (build_returns env rid badge snd extra expiration thread_id lk
                priority collapse_id
                [("content-available", PyInt content_available)] [] []
                alert w Hwf Hok) as (request & w1 & Hb).
    rewrite Hb in H.
    pose proof (build_frame _ _ _ _ _ _ _ _ _ _ _ _ _ _ _ _ _ Hb) as [Ht _].
    pose proof (build_token _ _ _ _ _ _ _ _ _ _ _ _ _ _ _ _ _ Hb) as Htok.
    unfold bind at 1 in H. rewrite send_message_run in H.
    destruct (send_notification env (trace w1) (client apns_service) request)
      as [res|e1] eqn:Hs.
    + apply IH in H; [|simpl|exact Hok].
      * destruct H as (pre & r & Htr & Hraise & Hpre). simpl in Htr, Hraise.
        exists (EvSend (client apns_service) request :: pre), r.
        rewrite Htr, Ht, <- !app_assoc. split; [reflexivity|].
        rewrite Ht, <- app_assoc in Hraise. split; [exact Hraise|].
        simpl. rewrite Htok. by apply prefix_cons.
      * destruct alert as [x|l]; [exact I|]. simpl in *.
        eapply build_keeps_objects; eauto.
    + inversion H; subst. simpl. exists [], request.
      rewrite Ht, app_nil_r. simpl. repeat split; auto.
      * by rewrite <- Ht.
      * apply prefix_cons, prefix_nil.
Qed.

End LoopSends.

Section BulkSends.

Variable env : Env.

Variables (registration_ids : list string) (alert : alert_arg)
  (content_available : Z) (application_id : option string)
  (creds : option Credentials) (topic : option string)
  (badge : option Z) (snd : option string) (extra : dict pyval)
  (expiration : option Z) (thread_id lk : option string)
  (priority : option Z) (collapse_id : option string)
  (err_func : option ErrFunc).

Let bulk : M (dict (option string)) :=
  apns_send_bulk_message env registration_ids alert content_available
    application_id creds topic badge snd extra expiration thread_id lk
    priority collapse_id err_func.

(** What a bulk call adds to the trace: nothing when the setup fails;
    otherwise the sends of the batch up to where it stops, and after them
    at most one update of the devices. *)
Lemma bulk_sends w out w' evs :
  bulk w = (out, w') ->
  trace w' = (trace w ++ evs)%list ->
  exists c sends tail,
    evs = (sends ++ tail)%list
    /\ (tail = [] \/ exists tokens, tail = [EvUpdateIn tokens])
    /\ sends `prefix_of`
         batch_sends env c (alert_value (heap w) alert lk)
           (push_type_for alert) content_available badge snd extra
           expiration thread_id priority collapse_id (trace w)
           registration_ids.
Proof.
  unfold bulk, apns_send_bulk_message. intros H Hevs.
  unfold bind at 1 in H. unfold lift at 1 in H.
  assert (forall w0, w' = w0 -> trace w0 = trace w -> evs = []) as Hnone.
  { intros w0 -> E. rewrite E in Hevs.
    rewrite <- (app_nil_r (trace w)) in Hevs at 1.
    by apply app_inv_head in Hevs. }
  destruct (get_apns_topic env application_id) as [t0|e0].
  2:{ injection H as _ Hw. rewrite (Hnone w (eq_sym Hw) eq_refl).
      exists demo_client, [], []. simpl. split; [done|]. split; [by left|].
      apply prefix_nil. }
  unfold bind at 1 in H.
  pose proof (init_pure env application_id creds t0 err_func w) as Hpure.
  destruct (APNsService_init env application_id creds t0 err_func w)
    as [[svc|e] w1]; simpl in Hpure; subst w1.
  2:{ injection H as _ Hw. rewrite (Hnone w (eq_sym Hw) eq_refl).
      exists demo_client, [], []. simpl. split; [done|]. split; [by left|].
      apply prefix_nil. }
  unfold bind at 1 in H.
  destruct (bulk_loop env svc registration_ids alert content_available badge
              snd extra expiration thread_id lk priority collapse_id [] [] w)
    as [[[results inactive]|e] w2] eqn:Hloop;
    apply loop_sends in Hloop; destruct Hloop as (sends & Htr & Hpre & _);
    exists (client svc), sends.
  - simpl in H. unfold bind, update_devices, ret in H.
    destruct (0 <? length inactive)%nat; inversion H; subst; simpl in Hevs.
    + exists [EvUpdateIn inactive]. rewrite Htr, <- app_assoc in Hevs.
      apply app_inv_head in Hevs. split; [done|]. split; [eauto|done].
    + exists []. rewrite Htr in Hevs. apply app_inv_head in Hevs.
      rewrite app_nil_r. split; [done|]. split; [by left|done].
  - inversion H; subst. exists []. rewrite Htr in Hevs.
    apply app_inv_head in Hevs. rewrite app_nil_r.
    split; [done|]. split; [by left|done].
Qed.

(** A send of a bulk call, at its place among what the call did. *)
Lemma bulk_send_at w out w' pre c r post :
  bulk w = (out, w') ->
  trace w' = (trace w ++ pre ++ EvSend c r :: post)%list ->
  exists rid,
    r = request_of env (at_trace (trace w ++ pre)) rid
          (alert_value (heap w) alert lk) (push_type_for alert) badge snd
          extra expiration thread_id priority collapse_id
          [("content-available", PyInt content_available)] [] [].
Proof.
  intros H Htr.
  destruct (bulk_sends _ _ _ _ H Htr)
    as (c0 & sends & tail & Hevs & Htail & [k Hbatch]).
  assert (exists post', sends = (pre ++ EvSend c r :: post')%list)
    as [post' ->].
  { destruct Htail as [->|[tokens ->]].
    - rewrite app_nil_r in Hevs. eauto.
    - destruct post as [|z post _] using rev_ind.
      + apply app_inj_tail in Hevs. destruct Hevs as [_ E]. discriminate E.
      + rewrite app_comm_cons, app_assoc in Hevs.
        apply app_inj_tail in Hevs. destruct Hevs as [<- _]. eauto. }
  rewrite <- app_assoc in Hbatch. simpl in Hbatch.
  apply batch_sends_at in Hbatch. destruct Hbatch as [_ [rid ->]]. eauto.
Qed.

End BulkSends.

(** X16: every token of a batch is sent the same message with the same
    push type, however the call ends: a localisation key written into the
    caller's alert for the first token is there for the others, and an
    absent alert gets the same empty body every time.  When [extra] holds
    no ["aps"] entry, the [aps] object of every request carries the call's
    [content_available] under ["content-available"]. *)
Theorem batch_gets_one_message (env : Env)
    (registration_ids : list string) (alert : alert_arg)
    (content_available : Z) (application_id : option string)
    (creds : option Credentials) (topic : option string)
    (badge : option Z) (snd : option string) (extra : dict pyval)
    (expiration : option Z) (thread_id lk : option string)
    (priority : option Z) (collapse_id : option string)
    (err_func : option ErrFunc) (w : World)
    (out : result (dict (option string))) (w' : World)
    (pre mid post : list event) (c1 c2 : APNs) (r1 r2 : NotificationRequest) :
  apns_send_bulk_message env registration_ids alert content_available
    application_id creds topic badge snd extra expiration thread_id lk
    priority collapse_id err_func w = (out, w') ->
  trace w' = (trace w ++ pre ++ EvSend c1 r1 :: mid ++ EvSend c2 r2 :: post)%list ->
  message r1 = message r2
  /\ payload_push_type r1 = payload_push_type r2
  /\ (dict_has "aps" extra = false ->
      exists d,
        payload_aps r1 = Some d
        /\ dict_get "content-available" d = Some (PyInt content_available)).
Proof.
  intros H Htr.
  destruct (bulk_send_at env registration_ids alert content_available
              application_id creds topic badge snd extra expiration
              thread_id lk priority collapse_id err_func w out w'
              pre c1 r1 (mid ++ EvSend c2 r2 :: post) H Htr) as [rid1 ->].
  assert (trace w' =
            (trace w ++ (pre ++ EvSend c1
               (request_of env (at_trace (trace w ++ pre)) rid1
                  (alert_value (heap w) alert lk) (push_type_for alert) badge
                  snd extra expiration thread_id priority collapse_id
                  [("content-available", PyInt content_available)] [] [])
               :: mid) ++ EvSend c2 r2 :: post)%list) as Htr2.
  { rewrite Htr. by rewrite <- !app_assoc. }
  destruct (bulk_send_at env registration_ids alert content_available
              application_id creds topic badge snd extra expiration
              thread_id lk priority collapse_id err_func w out w'
              _ c2 r2 post H Htr2) as [rid2 ->].
  split; [reflexivity|]. split.
  - by rewrite !request_push_type.
  - intros He. eexists. split; [by apply request_aps|]. reflexivity.
Qed.

(** X17: in a bulk call the clock is read again for every token: the time
    to live of a request is the expiration less the clock's reading after
    the sends made before it, so tokens late in the batch get what is
    left of the time. *)
Theorem batch_reads_the_clock_per_token (env : Env)
    (registration_ids : list string) (alert : alert_arg)
    (content_available : Z) (application_id : option string)
    (creds : option Credentials) (topic : option string)
    (badge : option Z) (snd : option string) (extra : dict pyval)
    (e : Z) (thread_id lk : option string)
    (priority : option Z) (collapse_id : option string)
    (err_func : option ErrFunc) (w : World)
    (out : result (dict (option string))) (w' : World)
    (pre post : list event) (c : APNs) (r : NotificationRequest) :
  apns_send_bulk_message env registration_ids alert content_available
    application_id creds topic badge snd extra (Some e) thread_id lk
    priority collapse_id err_func w = (out, w') ->
  trace w' = (trace w ++ pre ++ EvSend c r :: post)%list ->
  dict_get "time_to_live" (request_kwargs r)
  = Some (KwVal (PyInt (e - time_time env (trace w ++ pre)))).
Proof.
  intros H Htr.
  destruct (bulk_send_at _ _ _ _ _ _ _ _ _ _ _ _ _ _ _ _ _ _ _ _ _ _ _ H Htr)
    as [rid ->].
  apply request_time_to_live.
Qed.

(** X18: a bulk call whose setup has succeeded and whose alert can be
    built raises only what a send raised, unchanged: the send that raised
    is the last thing it did, and the tokens sent to are the first of the
    batch, in order, so that no token after it is sent to. *)
Theorem batch_stops_at_the_send_that_raises (env : Env)
    (registration_ids : list string) (alert : alert_arg)
    (content_available : Z) (application_id : option string)
    (creds : option Credentials) (topic : option string)
    (badge : option Z) (snd : option string) (extra : dict pyval)
    (expiration : option Z) (thread_id lk : option string)
    (priority : option Z) (collapse_id : option string)
    (err_func : option ErrFunc) (w : World)
    (configured : option string) (svc : APNsService) (e : exn) (w' : World) :
  get_apns_topic env application_id = Ok configured ->
  APNsService_init env application_id creds configured err_func w = (Ok svc, w) ->
  well_formed w alert ->
  other_kind alert && truthy lk = false ->
  apns_send_bulk_message env registration_ids alert content_available
    application_id creds topic badge snd extra expiration thread_id lk
    priority collapse_id err_func w = (Raise e, w') ->
  exists pre r,
    trace w' = (trace w ++ pre ++ [EvSend (client svc) r])%list
    /\ send_notification env (trace w ++ pre) (client svc) r = Raise e
    /\ sent_tokens (pre ++ [EvSend (client svc) r]) `prefix_of` registration_ids.
Proof.
  intros Htopic Hinit Hwf Hok H. unfold apns_send_bulk_message in H.
  unfold bind at 1 in H. unfold lift at 1 in H. rewrite Htopic in H.
  unfold bind at 1 in H. rewrite Hinit in H.
  unfold bind at 1 in H.
  destruct (bulk_loop env svc registration_ids alert content_available badge
              snd extra expiration thread_id lk priority collapse_id [] [] w)
    as [[[results inactive]|e1] w2] eqn:Hloop.
  - simpl in H. unfold bind, update_devices, ret in H.
    destruct (0 <? length inactive)%nat; discriminate H.
  - injection H as <- <-. eapply loop_raises; eauto.
Qed.

(** X16 on the batch ["abc"; "xyz"]. *)
Lemma batch_gets_one_message_witness :
  message (demo_bulk_request "abc") = message (demo_bulk_request "xyz")
  /\ payload_push_type (demo_bulk_request "abc")
     = payload_push_type (demo_bulk_request "xyz")
  /\ (dict_has "aps" ([] : dict pyval) = false ->
      exists d,
        payload_aps (demo_bulk_request "abc") = Some d
        /\ dict_get "content-available" d = Some (PyInt 0)).
Proof.
  apply (batch_gets_one_message demo_env ["abc"; "xyz"]
           (AlertVal (PyStr "Hello")) 0 None None None None None [] None None
           None None None None demo_world
           (fst (apns_send_bulk_message demo_env ["abc"; "xyz"]
                   (AlertVal (PyStr "Hello")) 0 None None None None None []
                   None None None None None None demo_world))
           (snd (apns_send_bulk_message demo_env ["abc"; "xyz"]
                   (AlertVal (PyStr "Hello")) 0 None None None None None []
                   None None None None None None demo_world))
           [] [] [EvUpdateIn ["xyz"]] demo_client demo_client).
  - apply surjective_pairing.
  - reflexivity.
Defined.

(** X17 with a clock that ticks: a deadline of 1500 leaves 500 for the
    first token and 499 for the second. *)
Lemma batch_reads_the_clock_per_token_witness :
  dict_get "time_to_live"
    (request_kwargs
       (mkNotificationRequest "xyz" (message (demo_bulk_request "xyz"))
          [("push_type", KwPushType ALERT);
           ("time_to_live", KwVal (PyInt 499))]))
  = Some (KwVal (PyInt (1500 - time_time ticking_env
                                 (trace demo_world ++
                                  [EvSend demo_client
                                     (mkNotificationRequest "abc"
                                        (message (demo_bulk_request "abc"))
                                        [("push_type", KwPushType ALERT);
                                         ("time_to_live", KwVal (PyInt 500))])])))).
Proof.
  apply (batch_reads_the_clock_per_token ticking_env ["abc"; "xyz"]
           (AlertVal (PyStr "Hello")) 0 None None None None None [] 1500
           None None None None None demo_world
           (fst (apns_send_bulk_message ticking_env ["abc"; "xyz"]
                   (AlertVal (PyStr "Hello")) 0 None None None None None []
                   (Some 1500) None None None None None demo_world))
           (snd (apns_send_bulk_message ticking_env ["abc"; "xyz"]
                   (AlertVal (PyStr "Hello")) 0 None None None None None []
                   (Some 1500) None None None None None demo_world))
           [EvSend demo_client
              (mkNotificationRequest "abc" (message (demo_bulk_request "abc"))
                 [("push_type", KwPushType ALERT);
                  ("time_to_live", KwVal (PyInt 500))])]
           [EvUpdateIn ["xyz"]] demo_client).
  - apply surjective_pairing.
  - reflexivity.
Defined.

(** X18 on the batch ["xyz"; "boom"; "abc"]: the call stops at ["boom"]. *)
Lemma batch_stops_at_the_send_that_raises_witness :
  exists pre r,
    trace (snd (apns_send_bulk_message demo_env ["xyz"; "boom"; "abc"]
                  (AlertVal (PyStr "Hello")) 0 None None None None None []
                  None None None None None None demo_world))
    = (trace demo_world ++ pre ++ [EvSend (client (mkAPNsService demo_client)) r])%list
    /\ send_notification demo_env (trace demo_world ++ pre)
         (client (mkAPNsService demo_client)) r
       = Raise (ConnectionError "MaxAttemptsExceeded")
    /\ sent_tokens (pre ++ [EvSend (client (mkAPNsService demo_client)) r])
         `prefix_of` ["xyz"; "boom"; "abc"].
Proof.
  apply (batch_stops_at_the_send_that_raises demo_env ["xyz"; "boom"; "abc"]
           (AlertVal (PyStr "Hello")) 0 None None None None None [] None None
           None None None None demo_world (Some "com.example.app")
           (mkAPNsService demo_client)
           (ConnectionError "MaxAttemptsExceeded")).
  - reflexivity.
  - reflexivity.
  - exact I.
  - reflexivity.
  - vm_compute. reflexivity.
Defined.

(** ** The alert's own localisation key *)

Lemma dict_get_app {V} (k : string) (d1 d2 : dict V) :
  dict_get k (d1 ++ d2)%list = overridden_by d1 k (dict_get k d2).
Proof.
  unfold overridden_by.
  induction d1 as [|[k' v'] d1 IH]; simpl; [reflexivity|].
  by destruct (String.eqb k' k).
Qed.

Lemma set_fields_app (items1 items2 : list (string * attr)) :
  set_fields (items1 ++ items2) = (set_fields items1 ++ set_fields items2)%list.
Proof. apply omap_app. Qed.

(** A key that is the name of none of the fields is not in the result. *)
Lemma set_fields_absent (k : string) (items : list (string * attr)) :
  ~ In k (map (fun kv => str_replace "_" "-" (fst kv)) items) ->
  dict_get k (set_fields items) = None.
Proof.
  induction items as [|[key [|x]] items IH]; simpl; intros Hk; auto.
  destruct (String.eqb (str_replace "_" "-" key) k) eqn:E; auto.
  apply String.eqb_eq in E. tauto.
Qed.

(** Setting [loc_key] shows under ["loc-key"] and nowhere else. *)
Lemma asDict_set_loc_key (a : Alert) (v : pyval) (k : string) :
  dict_get k (asDict (set_loc_key a v)) =
    if String.eqb k "loc-key" then Some v else dict_get k (asDict a).
Proof.
  rewrite !asDict_as_set_fields.
  change (asdict (set_loc_key a v))
    with ([("title", title a); ("subtitle", subtitle a); ("body", body a);
           ("launch_image", launch_image a);
           ("title_loc_key", title_loc_key a);
           ("title_loc_args", title_loc_args a);
           ("subtitle_loc_key", subtitle_loc_key a);
           ("subtitle_loc_args", subtitle_loc_args a)]
          ++ [("loc_key", Value v)]
          ++ [("loc_args", loc_args a); ("sound", sound a)])%list.
  change (asdict a)
    with ([("title", title a); ("subtitle", subtitle a); ("body", body a);
           ("launch_image", launch_image a);
           ("title_loc_key", title_loc_key a);
           ("title_loc_args", title_loc_args a);
           ("subtitle_loc_key", subtitle_loc_key a);
           ("subtitle_loc_args", subtitle_loc_args a)]
          ++ [("loc_key", loc_key a)]
          ++ [("loc_args", loc_args a); ("sound", sound a)])%list.
  rewrite !set_fields_app, !dict_get_app. unfold overridden_by.
  destruct (String.eqb k "loc-key") eqn:E.
  - apply String.eqb_eq in E. subst k.
    rewrite set_fields_absent; [reflexivity|].
    simpl. intuition discriminate.
  - assert (forall x, dict_get k (set_fields [("loc_key", x)]) = None) as Hk.
    { intros [|x]; [reflexivity|].
      change (dict_get k (set_fields [("loc_key", Value x)]))
        with (if String.eqb "loc-key" k then Some x else None).
      rewrite String.eqb_sym in E. by rewrite E. }
    by rewrite !Hk.
Qed.

(** X19: a localisation key given beside an [Alert] instance replaces the
    instance's own: the alert of the payload holds the given key under
    ["loc-key"] and under every other key what the instance held. *)
Theorem given_loc_key_replaces_the_alerts_own (env : Env) (w : World)
    (rid k : string) (l : loc) (a : Alert)
    (badge : option Z) (snd : option string) (extra : dict pyval)
    (expiration : option Z) (thread_id : option string)
    (priority : option Z) (collapse_id : option string)
    (aps_kwargs message_kwargs : dict pyval) (nrk : dict kwval) :
  heap w !! l = Some a ->
  k <> "" ->
  dict_has "alert" aps_kwargs = false ->
  dict_has "aps" extra = false ->
  dict_has "aps" message_kwargs = false ->
  exists r w' d,
    _create_notification_request_from_args env rid (AlertRef l)
      badge snd extra expiration thread_id (Some k) priority collapse_id
      aps_kwargs message_kwargs nrk w = (Ok r, w')
    /\ payload_alert r = Some (PyDict d)
    /\ dict_get "loc-key" d = Some (PyStr k)
    /\ forall key, key <> "loc-key" -> dict_get key d = dict_get key (asDict a).
Proof.
  intros Hl Hk Ha He Hm.
  assert (truthy (Some k) = true) as Ht.
  { simpl. destruct (String.eqb k "") eqn:E; [|reflexivity].
    apply String.eqb_eq in E. contradiction. }
  rewrite build_ref_loc with (a := a) by assumption.
  do 3 eexists. split; [reflexivity|]. split.
  - by rewrite request_alert by assumption.
  - simpl. split.
    + by rewrite asDict_set_loc_key.
    + intros key Hkey. rewrite asDict_set_loc_key.
      destruct (String.eqb key "loc-key") eqn:E; [|reflexivity].
      apply String.eqb_eq in E. contradiction.
Qed.

(** X19 for [Alert(title="Hi", loc_key="OLD")] and the key ["NEW"]. *)
Lemma given_loc_key_replaces_the_alerts_own_witness :
  exists r w',
    _create_notification_request_from_args demo_env "abc" (AlertRef 7%nat)
      None None [] None None (Some "NEW") None None [] [] []
      (mkWorld {[ 7%nat :=
                  mkAlert (Value (PyStr "Hi")) NotSet NotSet NotSet NotSet
                    NotSet NotSet NotSet (Value (PyStr "OLD")) NotSet NotSet ]}
         [] [])
    = (Ok r, w')
    /\ payload_alert r
       = Some (PyDict [("title", PyStr "Hi"); ("loc-key", PyStr "NEW")]).
Proof.
  destruct (given_loc_key_replaces_the_alerts_own demo_env
              (mkWorld {[ 7%nat :=
                          mkAlert (Value (PyStr "Hi")) NotSet NotSet NotSet
                            NotSet NotSet NotSet NotSet (Value (PyStr "OLD"))
                            NotSet NotSet ]} [] [])
              "abc" "NEW" 7%nat
              (mkAlert (Value (PyStr "Hi")) NotSet NotSet NotSet NotSet
                 NotSet NotSet NotSet (Value (PyStr "OLD")) NotSet NotSet)
              None None [] None None None None [] [] [])
    as (r & w' & d & Hrun & _); [reflexivity|discriminate|reflexivity..|].
  exists r, w'. split; [exact Hrun|].
  injection Hrun as <- _. reflexivity.
Defined.

(** ** The devices and the single call *)


